(** * permanager: the recursive Permit / Privilege / Permission evaluator

    A shallow embedding of [src/index.ts].  The file holds two variants of
    the library, one after the other: the first (lines 1-462) and the
    second (lines 463-895).  They share the evaluators and the checkers
    word for word and differ in

    - the message computed by the [Denial] constructor,
    - the category [requirePermission] wraps a primitive error with,
    - what [requirePermit] / [requirePermission] return on success,
    - the bulk operations (first variant only).

    The embedding therefore takes the variant as a parameter ([Variant])
    wherever the two texts differ, and is one definition otherwise.

    Modelling decisions, all stated here once:

    - JavaScript values that the engine inspects ([any]-typed fields, Role
      and Approval objects, thrown errors) are the type [Any]: primitives
      plus objects as a class name and a property list.  Numbers are the
      integer-valued ones.
    - A Permit, Privilege or Permission is a tree: a promise, an array, a
      function, or any other value.  The first three are constructors since
      the evaluators recurse through them; "any other value" is a leaf
      holding an [Any], on which the code dispatches with [typeof].
    - Caller-supplied functions are total and deterministic, and carry a
      label.  Promises are fulfilled ones.  Time is not modelled.
    - A computation of the engine is a [Run]: the labels of the caller
      functions it invokes, and how it completes (a value or a thrown
      value).  The labels stand for the observations of an instrumented
      (spy) function.  Within one array fan-out JavaScript interleaves the
      siblings; the list keeps them sibling by sibling, so statements
      about [calls] across siblings only count occurrences.
    - The construction helpers of the second variant ([Permission.create],
      [Permission.map], [Permission.continuation], [Permit.map],
      [Role.continuation]) are not embedded: the functions they build
      return the promise of a whole check, which a function of this
      embedding (a total one, with one label) is not. *)

From Stdlib Require Import String List ZArith Bool Lia.
From Stdlib Require Import DecimalString.
Import ListNotations.
Local Open Scope string_scope.
Local Open Scope list_scope.
Set Warnings "-register-all".

(** ** Values *)

(** Which of the two source variants a definition is read from. *)
Inductive Variant : Type := First | Second.

(** A JavaScript value as far as the engine can look at it.  An object is
    neither an array, a promise nor a function: those are constructors of
    the three composition types below. *)
Inductive Any : Type :=
| AUndefined
| ANull
| ABoolean (b : bool)
| ANumber (n : Z)
| ABigInt (n : Z)
| AString (s : string)
| ASymbol (description : string)
| AObject (class : string) (fields : list (string * Any)).

(** The [typeof] operator. *)
Definition typeof (v : Any) : string :=
  match v with
  | AUndefined => "undefined"
  | ANull => "object"
  | ABoolean _ => "boolean"
  | ANumber _ => "number"
  | ABigInt _ => "bigint"
  | AString _ => "string"
  | ASymbol _ => "symbol"
  | AObject _ _ => "object"
  end.

(** [!!v]: the truth value of [v] in a condition. *)
Definition ToBoolean (v : Any) : bool :=
  match v with
  | AUndefined | ANull => false
  | ABoolean b => b
  | ANumber n | ABigInt n => negb (n =? 0)%Z
  | AString s => negb (s =? "")
  | ASymbol _ | AObject _ _ => true
  end.

Fixpoint lookup (fields : list (string * Any)) (key : string) : Any :=
  match fields with
  | [] => AUndefined
  | (k, v) :: rest => if k =? key then v else lookup rest key
  end.

(** An object literal [{ k1: v1, ... }]. *)
Definition object (fields : list (string * Any)) : Any := AObject "Object" fields.

(** [new Error(message)] and the error of a property read on [null] or
    [undefined] (its message is the engine's own). *)
Definition Error (message : string) : Any :=
  AObject "Error" [("message", AString message)].
Definition TypeError : Any := AObject "TypeError" [].

(** ** Computations *)

Definition Label := string.

Inductive Completion (A : Type) : Type :=
| Return (a : A)
| Throw (e : Any).
Arguments Return {A} a.
Arguments Throw {A} e.

Record Run (A : Type) : Type := run { calls : list Label; result : Completion A }.
Arguments run {A} calls result.
Arguments calls {A} r.
Arguments result {A} r.

Definition ret {A} (a : A) : Run A := run [] (Return a).
Definition throw {A} (e : Any) : Run A := run [] (Throw e).

Definition bind {A B} (m : Run A) (k : A -> Run B) : Run B :=
  match result m with
  | Return a => run (calls m ++ calls (k a)) (result (k a))
  | Throw e => run (calls m) (Throw e)
  end.

(** Invoking the caller's function [name], then going on as [m]. *)
Definition invoke {A} (name : Label) (m : Run A) : Run A :=
  run (name :: calls m) (result m).

Declare Scope run_scope.
Delimit Scope run_scope with run.
Notation "x <- m ;; k" := (bind m (fun x => k))
  (at level 61, m at next level, right associativity) : run_scope.
Local Open Scope run_scope.

(** The values of a list of completions, or the first throw by position. *)
Fixpoint all_results {A} (rs : list (Completion A)) : Completion (list A) :=
  match rs with
  | [] => Return []
  | Return a :: rest =>
      match all_results rest with
      | Return l => Return (a :: l)
      | Throw e => Throw e
      end
  | Throw e :: _ => Throw e
  end.

(** [Promise.all(ps)], for siblings that have all been started by the
    [map] that built [ps]: every sibling runs to its end whatever the
    others do, and the values come in the siblings' order.  JavaScript
    rejects with the rejection that happens first in time; here it is the
    first by position (each evaluator throws one value only, see
    [evaluatePermit_throws] and the like). *)
Definition Promise_all {A} (ps : list (Run A)) : Run (list A) :=
  run (concat (map calls ps)) (all_results (map result ps)).

(** [o[key]] for the keys the engine reads, ["value"] and ["error"]. *)
Definition Get (o : Any) (key : string) : Run Any :=
  match o with
  | AUndefined | ANull => throw TypeError
  | AObject _ fields => ret (lookup fields key)
  | _ => ret AUndefined
  end.

(** What [String(o)] gives on an object: the object's own [toString], which
    is the caller's code. *)
Class Host : Type :=
  { ObjectToString : string -> list (string * Any) -> Completion string }.

Section Engine.

(** The type of targets, and the caller's objects. *)
Context {T : Type} {host : Host}.

(** ** The [Denial] class *)

(** [`${v}`]: the conversion a template literal applies (for a number, the
    decimal digits: exact for the integers below 10^21). *)
Definition ToString (v : Any) : Completion string :=
  match v with
  | AUndefined => Return "undefined"
  | ANull => Return "null"
  | ABoolean true => Return "true"
  | ABoolean false => Return "false"
  | ANumber n | ABigInt n => Return (NilZero.string_of_int (Z.to_int n))
  | AString s => Return s
  | ASymbol _ => Throw TypeError
  | AObject class fields => ObjectToString class fields
  end.

(** A [Denial] instance: the message given to [super], then the two fields
    the constructor assigns. *)
Definition DenialObject (message cause : string) (value : Any) : Any :=
  AObject "Denial"
    [("message", AString message); ("cause", AString cause); ("value", value)].

(** [value === undefined]. *)
Definition is_undefined (v : Any) : bool :=
  match v with AUndefined => true | _ => false end.

(** The argument of [super(...)]:
    [value === undefined ? `Denial: ${cause}: ${value}` : `Denial: ${cause}`]
    in the first variant, the same with [value !== undefined] in the
    second. *)
Definition Denial_message (src : Variant) (cause : string) (value : Any)
  : Completion string :=
  let test :=
    match src with
    | First => is_undefined value
    | Second => negb (is_undefined value)
    end in
  if test then
    match ToString value with
    | Return s => Return ("Denial: " ++ cause ++ ": " ++ s)%string
    | Throw e => Throw e
    end
  else Return ("Denial: " ++ cause)%string.

(** [new Denial(cause, value)]. *)
Definition Denial_new (src : Variant) (cause : string) (value : Any) : Run Any :=
  match Denial_message src cause value with
  | Return message => ret (DenialObject message cause value)
  | Throw e => throw e
  end.

(** ** The composition types *)

Inductive Privilege : Type :=
| PrivilegePromise (p : Privilege)
| PrivilegeArray (ps : list Privilege)
| PrivilegeFunction (name : Label) (f : Any -> Privilege)
| PrivilegeValue (v : Any).

Inductive Permit : Type :=
| PermitPromise (p : Permit)
| PermitArray (ps : list Permit)
| PermitFunction (name : Label) (f : T -> Permit)
| PermitValue (v : Any).

Inductive Permission : Type :=
| PermissionPromise (p : Permission)
| PermissionArray (ps : list Permission)
| PermissionFunction (name : Label) (f : Privilege -> T -> Permission)
| PermissionValue (v : Any).

(** ** Evaluations *)

(** Each evaluator tests its argument in the order [instanceof Promise],
    [Array.isArray], [typeof] a literal (['boolean'] or ['string']),
    [typeof] ['object'], [typeof] ['function'], and throws otherwise.  The
    first two tests and the function test are the constructors here; the
    [typeof] tests on a leaf are in the source's order. *)

Fixpoint evaluatePermission (src : Variant) (permission : Permission)
    (privilege : Privilege) (target : T) {struct permission} : Run (list Any) :=
  match permission with
  | PermissionPromise p => evaluatePermission src p privilege target
  | PermissionArray ps =>
      it <- Promise_all (map (fun it => evaluatePermission src it privilege target) ps) ;;
      ret (concat it)
  | PermissionFunction name f =>
      invoke name (evaluatePermission src (f privilege target) privilege target)
  | PermissionValue v =>
      if typeof v =? "boolean" then
        d <- Denial_new src "Permission" v ;;
        ret [object [("value", v); ("error", d)]]
      else if typeof v =? "object" then ret [v]
      else throw (Error "Invalid Permission Type")
  end.

Fixpoint evaluatePrivilege (src : Variant) (privilege : Privilege) (role : Any)
    {struct privilege} : Run (list Any) :=
  match privilege with
  | PrivilegePromise p => evaluatePrivilege src p role
  | PrivilegeArray ps =>
      it <- Promise_all (map (fun it => evaluatePrivilege src it role) ps) ;;
      ret (concat it)
  | PrivilegeFunction name f => invoke name (evaluatePrivilege src (f role) role)
  | PrivilegeValue v =>
      if typeof v =? "boolean" then
        d <- Denial_new src "Privilege" v ;;
        ret [object [("value", v); ("error", d)]]
      else if typeof v =? "object" then ret [v]
      else throw (Error "Invalid Privilege Type")
  end.

Fixpoint evaluatePermit (src : Variant) (permit : Permit) (target : T)
    {struct permit} : Run (list Any) :=
  match permit with
  | PermitPromise p => evaluatePermit src p target
  | PermitArray ps =>
      it <- Promise_all (map (fun it => evaluatePermit src it target) ps) ;;
      ret (concat it)
  | PermitFunction name f => invoke name (evaluatePermit src (f target) target)
  | PermitValue v =>
      if typeof v =? "string" then
        d <- Denial_new src "Permit" v ;;
        ret [object [("value", v); ("error", d)]]
      else if typeof v =? "object" then ret [v]
      else throw (Error "Invalid Permit Type")
  end.

(** ** Validators *)

(** [for (const approval of approvals) if (!approval.value) return approval]:
    the approval the loop returns, or [None] when it runs to its end. *)
Fixpoint firstDenied (approvals : list Any) : Run (option Any) :=
  match approvals with
  | [] => ret None
  | approval :: rest =>
      value <- Get approval "value" ;;
      if negb (ToBoolean value) then ret (Some approval) else firstDenied rest
  end.

(** The body of [checkPermit] from its [for (const role of ...)] on. *)
Fixpoint checkRoles (src : Variant) (privilege : Privilege) (roles : list Any)
  : Run Any :=
  match roles with
  | [] => ret (object [("value", ABoolean true)])
  | role :: rest =>
      approvals <- evaluatePrivilege src privilege role ;;
      if (length approvals =? 0)%nat then
        error <- Get role "error" ;;
        ret (object [("value", ABoolean false); ("error", error)])
      else
        found <- firstDenied approvals ;;
        match found with
        | Some approval => ret approval
        | None => checkRoles src privilege rest
        end
  end.

Definition checkPermit (src : Variant) (permit : Permit) (privilege : Privilege)
    (target : T) : Run Any :=
  roles <- evaluatePermit src permit target ;;
  checkRoles src privilege roles.

Definition checkPermission (src : Variant) (permission : Permission)
    (privilege : Privilege) (target : T) : Run Any :=
  approvals <- evaluatePermission src permission privilege target ;;
  if (length approvals =? 0)%nat then
    d <- Denial_new src "Approval" AUndefined ;;
    ret (object [("value", ABoolean false); ("error", d)])
  else
    found <- firstDenied approvals ;;
    match found with
    | Some approval => ret approval
    | None => ret (object [("value", ABoolean true)])
    end.

(** ** Bulk validators (first variant) *)

Fixpoint checkPermits (src : Variant) (permits : list (Permit * Privilege * T))
  : Run Any :=
  match permits with
  | [] => ret (object [("value", ABoolean true)])
  | (permit, privilege, target) :: rest =>
      approval <- checkPermit src permit privilege target ;;
      value <- Get approval "value" ;;
      if negb (ToBoolean value) then ret approval else checkPermits src rest
  end.

Fixpoint checkPermissions (src : Variant)
    (permissions : list (Permission * Privilege * T)) : Run Any :=
  match permissions with
  | [] => ret (object [("value", ABoolean true)])
  | (permission, privilege, target) :: rest =>
      approval <- checkPermission src permission privilege target ;;
      value <- Get approval "value" ;;
      if negb (ToBoolean value) then ret approval else checkPermissions src rest
  end.

(** ** Require *)

(** The [case] labels of the [switch (typeof approval.error)]. *)
Definition wrapped_types : list string :=
  ["string"; "boolean"; "undefined"; "bigint"; "number"; "undefined"].

Definition is_wrapped (type : string) : bool :=
  existsb (String.eqb type) wrapped_types.

(** [if (!approval.value) switch (typeof approval.error) ...]: throws when
    the approval failed, the Denial being tagged [category]. *)
Definition throwDenied (src : Variant) (category : string) (approval : Any)
  : Run unit :=
  value <- Get approval "value" ;;
  if negb (ToBoolean value) then
    error <- Get approval "error" ;;
    if is_wrapped (typeof error) then
      d <- Denial_new src category error ;;
      throw d
    else throw error
  else ret tt.

(** What a [require*] call returns when the check passed: nothing in the
    first variant, [target] in the second. *)
Definition required (src : Variant) (target : T) : option T :=
  match src with
  | First => None
  | Second => Some target
  end.

Definition requirePermit (src : Variant) (permit : Permit) (privilege : Privilege)
    (target : T) : Run (option T) :=
  approval <- checkPermit src permit privilege target ;;
  _ <- throwDenied src "Permit" approval ;;
  ret (required src target).

(** The first variant passes ['Permit'] to [new Denial] here too; the
    second passes ['Permission']. *)
Definition requirePermission (src : Variant) (permission : Permission)
    (privilege : Privilege) (target : T) : Run (option T) :=
  approval <- checkPermission src permission privilege target ;;
  _ <- throwDenied src (match src with First => "Permit" | Second => "Permission" end)
         approval ;;
  ret (required src target).

End Engine.

Arguments Permit T : clear implicits.
Arguments Permission T : clear implicits.

(** ** Words of the specification *)

Section Words.

Context {T : Type} {host : Host}.

(** An Approval whose [value] reads as true, and one whose [value] reads
    as false, under [!approval.value]. *)
Definition Approved (approval : Any) : Prop :=
  exists value, Get approval "value" = ret value /\ ToBoolean value = true.

Definition Denied (approval : Any) : Prop :=
  exists value, Get approval "value" = ret value /\ ToBoolean value = false.

(** [d] is a Denial with the given [cause] and [value] fields. *)
Definition IsDenial (cause : string) (value : Any) (d : Any) : Prop :=
  exists message, d = DenialObject message cause value.

(** A value with the shape of a Role: an object that has a [value]
    property. *)
Definition isRoleObject (v : Any) : bool :=
  match v with
  | AObject _ fields => existsb (fun field => fst field =? "value") fields
  | _ => false
  end.

(** Section 4.4 of the specification, as a relation: [Scan src privilege
    roles log out] when going through [roles] in order ends with [out],
    having invoked [log]. *)
Inductive Scan (src : Variant) (privilege : Privilege)
  : list Any -> list Label -> Completion Any -> Prop :=
| Scan_exhausted :
    (* every Role's Approval sequence is exhausted with no false value *)
    Scan src privilege [] [] (Return (object [("value", ABoolean true)]))
| Scan_implicit role rest error :
    (* the Approval sequence is empty: denial with the Role's own error *)
    result (evaluatePrivilege src privilege role) = Return [] ->
    Get role "error" = ret error ->
    Scan src privilege (role :: rest)
      (calls (evaluatePrivilege src privilege role))
      (Return (object [("value", ABoolean false); ("error", error)]))
| Scan_explicit role rest passed approval remaining :
    (* the first Approval with a false value is returned *)
    result (evaluatePrivilege src privilege role)
      = Return (passed ++ approval :: remaining) ->
    Forall Approved passed ->
    Denied approval ->
    Scan src privilege (role :: rest)
      (calls (evaluatePrivilege src privilege role))
      (Return approval)
| Scan_next role rest approvals log out :
    (* no false value for this Role: on to the next one *)
    result (evaluatePrivilege src privilege role) = Return approvals ->
    approvals <> [] ->
    Forall Approved approvals ->
    Scan src privilege rest log out ->
    Scan src privilege (role :: rest)
      (calls (evaluatePrivilege src privilege role) ++ log) out.

(** One tuple of a bulk check passes, or fails with [approval]. *)
Definition Passes (src : Variant) (check : Permit T * Privilege * T) : Prop :=
  let '(permit, privilege, target) := check in
  exists approval,
    result (checkPermit src permit privilege target) = Return approval /\
    Approved approval.

Definition FailsWith (src : Variant) (check : Permit T * Privilege * T)
    (approval : Any) : Prop :=
  let '(permit, privilege, target) := check in
  result (checkPermit src permit privilege target) = Return approval /\
  Denied approval.

Definition checkCalls (src : Variant) (check : Permit T * Privilege * T)
  : list Label :=
  let '(permit, privilege, target) := check in
  calls (checkPermit src permit privilege target).

(** Induction on a Permit, through the arrays. *)
Section PermitInduction.

Variable P : Permit T -> Prop.
Hypothesis P_promise : forall p, P p -> P (PermitPromise p).
Hypothesis P_array : forall ps, Forall P ps -> P (PermitArray ps).
Hypothesis P_function : forall name f, (forall t, P (f t)) -> P (PermitFunction name f).
Hypothesis P_value : forall v, P (PermitValue v).


End PermitInduction.

(** The same for a Privilege and for a Permission. *)
Section PrivilegeInduction.

Variable P : Privilege -> Prop.
Hypothesis P_promise : forall p, P p -> P (PrivilegePromise p).
Hypothesis P_array : forall ps, Forall P ps -> P (PrivilegeArray ps).
Hypothesis P_function :
  forall name f, (forall role, P (f role)) -> P (PrivilegeFunction name f).
Hypothesis P_value : forall v, P (PrivilegeValue v).


End PrivilegeInduction.

Section PermissionInduction.

Variable P : Permission T -> Prop.
Hypothesis P_promise : forall p, P p -> P (PermissionPromise p).
Hypothesis P_array : forall ps, Forall P ps -> P (PermissionArray ps).
Hypothesis P_function :
  forall name f, (forall privilege t, P (f privilege t)) ->
                 P (PermissionFunction name f).
Hypothesis P_value : forall v, P (PermissionValue v).


End PermissionInduction.

End Words.

(** ** Concrete hosts and inputs *)

(** A host whose objects all print as plain objects do. *)
Definition plain : Host :=
  {| ObjectToString := fun _ _ => Return "[object Object]" |}.

(** [new CustomError()]: an object of a class of the caller's. *)
Definition customError : Any := AObject "CustomError" [("message", AString "")].

(** [(role) => []]: a Privilege that addresses no Role. *)
Definition addressesNothing (name : Label) : Privilege :=
  PrivilegeFunction name (fun _ => PrivilegeArray []).

(** [{ value: false, error }]: an Approval that failed with [error]. *)
Definition failed (error : Any) : Any :=
  object [("value", ABoolean false); ("error", error)].

(** ** The derived operations *)

Section Derived.

Context {T : Type} {host : Host}.

(** [{ value: true }], what every check returns when nothing failed. *)
Definition approvedObject : Any := object [("value", ABoolean true)].

(** *** Is *)

Definition isPermitted (src : Variant) (permit : Permit T) (privilege : Privilege)
    (target : T) : Run Any :=
  it <- checkPermit src permit privilege target ;;
  Get it "value".

Definition isPermissioned (src : Variant) (permission : Permission T)
    (privilege : Privilege) (target : T) : Run Any :=
  it <- checkPermission src permission privilege target ;;
  Get it "value".

(** *** Bulk is (first variant) *)

Definition arePermitted (src : Variant) (permits : list (Permit T * Privilege * T))
  : Run Any :=
  it <- checkPermits src permits ;;
  Get it "value".

Definition arePermissioned (src : Variant)
    (permissions : list (Permission T * Privilege * T)) : Run Any :=
  it <- checkPermissions src permissions ;;
  Get it "value".

(** *** Bulk require (first variant) *)

(** [if (!approval.value) throw approval.error]. *)
Definition throwError (approval : Any) : Run unit :=
  value <- Get approval "value" ;;
  if negb (ToBoolean value) then
    error <- Get approval "error" ;;
    throw error
  else ret tt.

Definition requirePermits (src : Variant) (permits : list (Permit T * Privilege * T))
  : Run unit :=
  approval <- checkPermits src permits ;;
  throwError approval.

Definition requirePermissions (src : Variant)
    (permissions : list (Permission T * Privilege * T)) : Run unit :=
  approval <- checkPermissions src permissions ;;
  throwError approval.

(** One tuple of a bulk Permission check passes, or fails with [approval]. *)
Definition PassesPermission (src : Variant) (check : Permission T * Privilege * T)
  : Prop :=
  let '(permission, privilege, target) := check in
  exists approval,
    result (checkPermission src permission privilege target) = Return approval /\
    Approved approval.

Definition FailsPermissionWith (src : Variant)
    (check : Permission T * Privilege * T) (approval : Any) : Prop :=
  let '(permission, privilege, target) := check in
  result (checkPermission src permission privilege target) = Return approval /\
  Denied approval.

Definition permissionCalls (src : Variant) (check : Permission T * Privilege * T)
  : list Label :=
  let '(permission, privilege, target) := check in
  calls (checkPermission src permission privilege target).

(** *** Role sets (first variant) *)

(** A value that is compared by what it is.  Symbols and objects are
    compared by identity, which a value of [Any] does not carry. *)
Definition structural (v : Any) : bool :=
  match v with
  | ASymbol _ | AObject _ _ => false
  | _ => true
  end.

Section RoleSets.

(** Whether two symbols, or two objects, are the same one. *)
Variable identical : Any -> Any -> bool.

(** The equality of the elements of a [Set]. *)
Definition SameValueZero (x y : Any) : bool :=
  match x, y with
  | AUndefined, AUndefined => true
  | ANull, ANull => true
  | ABoolean a, ABoolean b => Bool.eqb a b
  | ANumber a, ANumber b => (a =? b)%Z
  | ABigInt a, ABigInt b => (a =? b)%Z
  | AString a, AString b => (a =? b)%string
  | ASymbol _, ASymbol _ => identical x y
  | AObject _ _, AObject _ _ => identical x y
  | _, _ => false
  end.

(** [set.add(v)], the set being the list of its elements as inserted. *)
Definition Set_add (set : list Any) (v : Any) : list Any :=
  if existsb (SameValueZero v) set then set else set ++ [v].

(** [[...new Set(it)]]. *)
Definition Set_new (it : list Any) : list Any := fold_left Set_add it [].

(** [it.map(it => it.value)]. *)
Fixpoint values (it : list Any) : Run (list Any) :=
  match it with
  | [] => ret []
  | role :: rest =>
      value <- Get role "value" ;;
      others <- values rest ;;
      ret (value :: others)
  end.

Definition createRoleSet (src : Variant) (permit : Permit T) (target : T)
  : Run (list Any) :=
  it <- evaluatePermit src permit target ;;
  it <- values it ;;
  ret (Set_new it).

Definition createRoleSets (src : Variant) (permits : list (Permit T * T))
  : Run (list Any) :=
  it <- Promise_all (map (fun '(p, t) => createRoleSet src p t) permits) ;;
  it <- ret (concat it) ;;
  ret (Set_new it).

End RoleSets.

End Derived.

(** * Properties *)

Section Properties.

Context {T : Type} {host : Host}.

(** ** Computations *)

Lemma bind_Return {A B} (m : Run A) (k : A -> Run B) a :
  result m = Return a ->
  bind m k = run (calls m ++ calls (k a)) (result (k a)).
Proof. intros H. unfold bind. now rewrite H. Qed.

Lemma bind_Throw {A B} (m : Run A) (k : A -> Run B) e :
  result m = Throw e -> bind m k = run (calls m) (Throw e).
Proof. intros H. unfold bind. now rewrite H. Qed.

Lemma bind_ret {A B} (a : A) (k : A -> Run B) : bind (ret a) k = k a.
Proof. unfold bind. simpl. now destruct (k a). Qed.

Lemma run_eta {A} (m : Run A) : run (calls m) (result m) = m.
Proof. now destruct m. Qed.

Lemma Get_calls o key : calls (Get o key) = [].
Proof. now destruct o. Qed.

Lemma Get_ret o key v : result (Get o key) = Return v -> Get o key = ret v.
Proof.
  intros H. rewrite <- (run_eta (Get o key)), Get_calls, H. reflexivity.
Qed.

Lemma all_results_Return {A} (rs : list (Completion A)) (vs : list A) :
  Forall2 (fun r v => r = Return v) rs vs -> all_results rs = Return vs.
Proof.
  induction 1 as [|r v rs vs Hr _ IH]; simpl; [reflexivity|].
  now rewrite Hr, IH.
Qed.


(** ** The Denial constructor *)

Lemma append_not_longer (a b : string) : (a ++ ": " ++ b)%string <> a.
Proof.
  induction a as [|c a IH]; simpl; [discriminate|].
  intros H. injection H as H. now apply IH.
Qed.

(** The constructor returns on every value a template literal converts. *)
Lemma Denial_new_returns src cause value s :
  ToString value = Return s ->
  exists d, Denial_new src cause value = ret d /\ IsDenial cause value d.
Proof.
  intros Hs. unfold Denial_new, Denial_message. rewrite Hs.
  destruct src, (is_undefined value); simpl; eexists; split;
    try reflexivity; eexists; reflexivity.
Qed.

Lemma ToString_wrapped value :
  is_wrapped (typeof value) = true -> exists s, ToString value = Return s.
Proof.
  destruct value as [| |b|n|n|s|d|c fs]; simpl; try discriminate;
    try (eexists; reflexivity).
  destruct b; eexists; reflexivity.
Qed.

(** ** Scanning approvals *)

Lemma Approved_object class fields :
  ToBoolean (lookup fields "value") = true -> Approved (AObject class fields).
Proof. intros H. eexists. split; [reflexivity|exact H]. Qed.

Lemma Denied_object class fields :
  ToBoolean (lookup fields "value") = false -> Denied (AObject class fields).
Proof. intros H. eexists. split; [reflexivity|exact H]. Qed.

Lemma firstDenied_none approvals :
  Forall Approved approvals -> firstDenied approvals = ret None.
Proof.
  induction 1 as [|a rest [v [Hv Ht]] _ IH]; simpl; [reflexivity|].
  now rewrite Hv, bind_ret, Ht.
Qed.

Lemma firstDenied_found passed approval remaining :
  Forall Approved passed -> Denied approval ->
  firstDenied (passed ++ approval :: remaining) = ret (Some approval).
Proof.
  intros Hp [v [Hv Hf]].
  induction Hp as [|a rest [w [Hw Ht]] _ IH]; simpl.
  - now rewrite Hv, bind_ret, Hf.
  - now rewrite Hw, bind_ret, Ht.
Qed.

Lemma length_app_cons_nonzero {A} (xs : list A) x ys :
  (length (xs ++ x :: ys) =? 0)%nat = false.
Proof. rewrite length_app. simpl. apply Nat.eqb_neq. lia. Qed.

Lemma length_nonzero {A} (xs : list A) :
  xs <> [] -> (length xs =? 0)%nat = false.
Proof. destruct xs; [congruence|reflexivity]. Qed.

Lemma checkRoles_Scan src privilege roles log out :
  Scan src privilege roles log out ->
  checkRoles src privilege roles = run log out.
Proof.
  induction 1 as [ | role rest error He Hg
                   | role rest passed approval remaining He Hp Hd
                   | role rest approvals log out He Hne Hp _ IH ]; simpl.
  - reflexivity.
  - rewrite (bind_Return _ _ _ He). simpl. rewrite Hg, bind_ret. simpl.
    now rewrite app_nil_r.
  - rewrite (bind_Return _ _ _ He). rewrite length_app_cons_nonzero.
    rewrite (firstDenied_found _ _ _ Hp Hd), bind_ret. simpl.
    now rewrite app_nil_r.
  - rewrite (bind_Return _ _ _ He). rewrite (length_nonzero _ Hne).
    rewrite (firstDenied_none _ Hp), bind_ret, IH. reflexivity.
Qed.

(** [Scan] relates a list of Roles to one outcome at most, and to one when
    no read of a Role or of an Approval throws. *)
Lemma Scan_deterministic src privilege roles log1 out1 log2 out2 :
  Scan src privilege roles log1 out1 ->
  Scan src privilege roles log2 out2 ->
  log1 = log2 /\ out1 = out2.
Proof.
  intros H1 H2.
  apply checkRoles_Scan in H1. apply checkRoles_Scan in H2.
  rewrite H1 in H2. now injection H2.
Qed.

Lemma approvals_split approvals :
  Forall (fun a => exists value, Get a "value" = ret value) approvals ->
  Forall Approved approvals \/
  exists passed approval remaining,
    approvals = passed ++ approval :: remaining /\
    Forall Approved passed /\ Denied approval.
Proof.
  induction 1 as [|a rest [v Hv] _ IH]; [left; constructor|].
  destruct (ToBoolean v) eqn:Hb.
  - assert (Ha : Approved a) by (exists v; split; assumption).
    destruct IH as [IH|[passed [approval [remaining [-> [Hp Hd]]]]]].
    + left. now constructor.
    + right. exists (a :: passed), approval, remaining.
      repeat split; [|assumption]. now constructor.
  - right. exists [], a, rest. repeat split; [constructor|].
    exists v. split; assumption.
Qed.

Lemma Scan_total src privilege roles :
  Forall (fun role =>
            (exists error, Get role "error" = ret error) /\
            exists approvals,
              result (evaluatePrivilege src privilege role) = Return approvals /\
              Forall (fun a => exists value, Get a "value" = ret value) approvals)
         roles ->
  exists log out, Scan src privilege roles log out.
Proof.
  induction 1 as [|role rest [[error He] [approvals [Hr Ha]]] _ [log [out IH]]].
  - do 2 eexists. constructor.
  - destruct approvals as [|a approvals].
    + do 2 eexists. eapply Scan_implicit; eassumption.
    + destruct (approvals_split _ Ha)
        as [Hp|[passed [approval [remaining [Heq [Hp Hd]]]]]].
      * do 2 eexists. eapply Scan_next; try eassumption. discriminate.
      * rewrite Heq in Hr. do 2 eexists. eapply Scan_explicit; eassumption.
Qed.

(** C1: [checkPermit] goes through the Roles that [evaluatePermit] produced,
    in order, as section 4.4 of the specification says ([Scan]): a Role
    whose Approval sequence is empty ends the check with
    [{value: false, error: role.error}]; the first Approval whose value is
    false ends it with that Approval; when every sequence is exhausted the
    result is [{value: true}].  Nothing after the deciding Role or Approval
    is evaluated: the functions invoked are those of [evaluatePermit] and of
    the Roles up to the deciding one. *)
Theorem checkPermit_scans_roles src (permit : Permit T) privilege target roles log out :
  result (evaluatePermit src permit target) = Return roles ->
  Scan src privilege roles log out ->
  checkPermit src permit privilege target
  = run (calls (evaluatePermit src permit target) ++ log) out.
Proof.
  intros He Hs. unfold checkPermit.
  rewrite (bind_Return _ _ _ He), (checkRoles_Scan _ _ _ _ _ Hs). reflexivity.
Qed.

Lemma result_bind {A B} (m : Run A) (k : A -> Run B) a :
  result m = Return a -> result (bind m k) = result (k a).
Proof. intros H. now rewrite (bind_Return _ _ _ H). Qed.

(** C2: [checkPermission] fails with [Denial('Approval')] when the
    Permission evaluates to an empty Approval sequence, as [[]] does;
    [checkPermission(false, ...)] fails with [Denial('Permission', false)];
    otherwise the result is the first Approval whose value is false, in
    order, and [{value: true}] when there is none. *)
Theorem checkPermission_spec src privilege (target : T) :
  (forall permission,
      result (evaluatePermission src permission privilege target) = Return [] ->
      exists d,
        Denial_new src "Approval" AUndefined = ret d /\
        IsDenial "Approval" AUndefined d /\
        result (checkPermission src permission privilege target)
        = Return (failed d)) /\
  (exists d,
      IsDenial "Approval" AUndefined d /\
      checkPermission src (PermissionArray []) privilege target = ret (failed d)) /\
  (exists d,
      IsDenial "Permission" (ABoolean false) d /\
      checkPermission src (PermissionValue (ABoolean false)) privilege target
      = ret (failed d)) /\
  (forall permission passed approval remaining,
      result (evaluatePermission src permission privilege target)
      = Return (passed ++ approval :: remaining) ->
      Forall Approved passed ->
      Denied approval ->
      result (checkPermission src permission privilege target) = Return approval) /\
  (forall permission approvals,
      result (evaluatePermission src permission privilege target)
      = Return approvals ->
      approvals <> [] ->
      Forall Approved approvals ->
      result (checkPermission src permission privilege target)
      = Return (object [("value", ABoolean true)])).
Proof.
  destruct (Denial_new_returns src "Approval" AUndefined "undefined" eq_refl)
    as [d [Hd Hi]].
  repeat split.
  - intros permission He. exists d. repeat split; try assumption.
    unfold checkPermission. rewrite (result_bind _ _ _ He). simpl.
    now rewrite Hd, bind_ret.
  - exists d. split; [assumption|].
    unfold checkPermission, bind. simpl. now rewrite Hd.
  - destruct src; eexists; (split; [eexists; reflexivity|reflexivity]).
  - intros permission passed approval remaining He Hp Hf.
    unfold checkPermission. rewrite (result_bind _ _ _ He).
    rewrite length_app_cons_nonzero.
    now rewrite (firstDenied_found _ _ _ Hp Hf), bind_ret.
  - intros permission approvals He Hne Hp.
    unfold checkPermission. rewrite (result_bind _ _ _ He).
    rewrite (length_nonzero _ Hne).
    now rewrite (firstDenied_none _ Hp), bind_ret.
Qed.

(** ** Arrays *)

Lemma calls_bind_ret {A B} (m : Run A) (f : A -> B) :
  calls (bind m (fun x => ret (f x))) = calls m.
Proof. unfold bind. destruct (result m); simpl; [apply app_nil_r|reflexivity]. Qed.

(** An array of Permits invokes what its elements invoke, and its Roles are
    theirs, in the order of the elements. *)
Lemma evaluatePermit_array_calls src (ps : list (Permit T)) target :
  calls (evaluatePermit src (PermitArray ps) target)
  = concat (map (fun p => calls (evaluatePermit src p target)) ps).
Proof. simpl. rewrite calls_bind_ret. simpl. now rewrite map_map. Qed.

Lemma evaluatePermit_array_result src (ps : list (Permit T)) target roles :
  Forall2 (fun p r => result (evaluatePermit src p target) = Return r) ps roles ->
  result (evaluatePermit src (PermitArray ps) target) = Return (concat roles).
Proof.
  intros H. simpl.
  assert (Ha : all_results
                 (map result (map (fun it => evaluatePermit src it target) ps))
               = Return roles).
  { apply all_results_Return. rewrite map_map.
    induction H; simpl; constructor; assumption. }
  unfold bind. simpl. now rewrite Ha.
Qed.

(** C3: the Roles of [[p1, p2]] are those of [p1] followed by those of [p2];
    both siblings are evaluated whatever the other does (each function is
    invoked as often as the two siblings invoke it together, also when one
    of them throws); and a sibling that is a pending promise gives the same
    Roles at the same place as one that is not. *)
Theorem evaluatePermit_array_concat src (p1 p2 : Permit T) target :
  (forall roles1 roles2,
      result (evaluatePermit src p1 target) = Return roles1 ->
      result (evaluatePermit src p2 target) = Return roles2 ->
      result (evaluatePermit src (PermitArray [p1; p2]) target)
      = Return (roles1 ++ roles2)) /\
  (forall name,
      count_occ string_dec (calls (evaluatePermit src (PermitArray [p1; p2]) target)) name
      = count_occ string_dec (calls (evaluatePermit src p1 target)) name
        + count_occ string_dec (calls (evaluatePermit src p2 target)) name) /\
  evaluatePermit src (PermitArray [PermitPromise p1; p2]) target
  = evaluatePermit src (PermitArray [p1; p2]) target /\
  evaluatePermit src (PermitArray [p1; PermitPromise p2]) target
  = evaluatePermit src (PermitArray [p1; p2]) target.
Proof.
  repeat split.
  - intros roles1 roles2 H1 H2.
    rewrite (evaluatePermit_array_result src [p1; p2] target [roles1; roles2]).
    + simpl. now rewrite app_nil_r.
    + repeat constructor; assumption.
  - intros name. rewrite evaluatePermit_array_calls. simpl.
    now rewrite app_nil_r, count_occ_app.
Qed.

(** ** Require *)

(** What the [switch] of the [require*] operations does with a failed
    Approval: an error of a wrapped type goes into a fresh Denial tagged
    [category], any other error is thrown as it is. *)
Lemma throwDenied_wraps src category approval error :
  Denied approval ->
  Get approval "error" = ret error ->
  is_wrapped (typeof error) = true ->
  exists d, IsDenial category error d /\ throwDenied src category approval = throw d.
Proof.
  intros [v [Hv Hf]] He Hw.
  destruct (ToString_wrapped _ Hw) as [s Hs].
  destruct (Denial_new_returns src category error s Hs) as [d [Hd Hi]].
  exists d. split; [assumption|].
  unfold throwDenied. rewrite Hv, bind_ret, Hf. simpl.
  now rewrite He, bind_ret, Hw, Hd, bind_ret.
Qed.

Lemma throwDenied_verbatim src category approval error :
  Denied approval ->
  Get approval "error" = ret error ->
  is_wrapped (typeof error) = false ->
  throwDenied src category approval = throw error.
Proof.
  intros [v [Hv Hf]] He Hw.
  unfold throwDenied. rewrite Hv, bind_ret, Hf. simpl.
  now rewrite He, bind_ret, Hw.
Qed.

Lemma throwDenied_passes src category approval :
  Approved approval -> throwDenied src category approval = ret tt.
Proof.
  intros [v [Hv Ht]]. unfold throwDenied. now rewrite Hv, bind_ret, Ht.
Qed.

(** The types the [switch] wraps are those of the primitives other than a
    symbol; [null], whose type is ['object'], is not among them. *)
Lemma is_wrapped_spec error :
  is_wrapped (typeof error) = true <->
  match error with
  | AUndefined | ABoolean _ | ANumber _ | ABigInt _ | AString _ => True
  | ANull | ASymbol _ | AObject _ _ => False
  end.
Proof. destruct error; simpl; intuition discriminate. Qed.

(** In both variants [requirePermit] tags the Denial it builds ['Permit'],
    and in the second variant [requirePermission] tags it ['Permission']. *)
Lemma requirePermit_wraps src (permit : Permit T) privilege target approval error :
  result (checkPermit src permit privilege target) = Return approval ->
  Denied approval ->
  Get approval "error" = ret error ->
  is_wrapped (typeof error) = true ->
  exists d, IsDenial "Permit" error d /\
            result (requirePermit src permit privilege target) = Throw d.
Proof.
  intros Hc Hd He Hw.
  destruct (throwDenied_wraps src "Permit" approval error Hd He Hw) as [d [Hi Ht]].
  exists d. split; [assumption|].
  unfold requirePermit. now rewrite (result_bind _ _ _ Hc), Ht.
Qed.

Lemma requirePermission_second_wraps (permission : Permission T) privilege target
    approval error :
  result (checkPermission Second permission privilege target) = Return approval ->
  Denied approval ->
  Get approval "error" = ret error ->
  is_wrapped (typeof error) = true ->
  exists d, IsDenial "Permission" error d /\
            result (requirePermission Second permission privilege target) = Throw d.
Proof.
  intros Hc Hd He Hw.
  destruct (throwDenied_wraps Second "Permission" approval error Hd He Hw)
    as [d [Hi Ht]].
  exists d. split; [assumption|].
  unfold requirePermission. now rewrite (result_bind _ _ _ Hc), Ht.
Qed.

Lemma requirePermission_verbatim src (permission : Permission T) privilege target
    approval error :
  result (checkPermission src permission privilege target) = Return approval ->
  Denied approval ->
  Get approval "error" = ret error ->
  is_wrapped (typeof error) = false ->
  result (requirePermission src permission privilege target) = Throw error.
Proof.
  intros Hc Hd He Hw. unfold requirePermission.
  rewrite (result_bind _ _ _ Hc).
  now rewrite (throwDenied_verbatim _ _ _ _ Hd He Hw).
Qed.

(** C4, as the code has it: [requirePermit('x', false, t)] throws the Denial
    that [evaluatePrivilege] built for the boolean, whose cause is
    ['Privilege'] and whose value is [false]; and
    [requirePermit('x', {value: false, error: e}, t)] throws [e] itself when
    [e] is an object. *)
Theorem requirePermit_throws src (target : T) :
  (exists d,
      IsDenial "Privilege" (ABoolean false) d /\
      requirePermit src (PermitValue (AString "x")) (PrivilegeValue (ABoolean false))
        target = throw d) /\
  (forall class fields,
      requirePermit src (PermitValue (AString "x"))
        (PrivilegeValue (failed (AObject class fields))) target
      = throw (AObject class fields)).
Proof.
  split.
  - destruct src; eexists; (split; [eexists; reflexivity|reflexivity]).
  - intros class fields. destruct src; reflexivity.
Qed.

(** C5, at an input on which the first variant departs from it: for a
    Permission that failed with the string ['e'], [requirePermission] of the
    first variant throws a Denial whose cause is ['Permit'], where the
    second variant's has the cause ['Permission']. *)
Theorem requirePermission_first_tags_Permit privilege (target : T) :
  requirePermission First (PermissionValue (failed (AString "e"))) privilege target
  = throw (DenialObject "Denial: Permit" "Permit" (AString "e")) /\
  requirePermission Second (PermissionValue (failed (AString "e"))) privilege target
  = throw (DenialObject "Denial: Permission: e" "Permission" (AString "e")).
Proof. split; reflexivity. Qed.

(** ** Values outside the union *)

(** C6, as the code has it: a Permit whose type is none of ['string'] and
    ['object'] (and that is no promise, array or function) makes
    [evaluatePermit] throw [Error('Invalid Permit Type')].  These are
    [undefined], the booleans, the numbers, the bigints and the symbols. *)
Theorem evaluatePermit_invalid_type src v (target : T) :
  typeof v <> "string" ->
  typeof v <> "object" ->
  evaluatePermit src (PermitValue v) target = throw (Error "Invalid Permit Type").
Proof.
  intros Hs Ho. destruct v; simpl in *; try reflexivity; congruence.
Qed.

(** Every value of type ['object'], [null] among them, is taken for a Role
    and returned as it is. *)
Lemma evaluatePermit_object src v (target : T) :
  typeof v = "object" -> evaluatePermit src (PermitValue v) target = ret [v].
Proof. intros H. destruct v; simpl in *; try discriminate; reflexivity. Qed.





(** ** Bulk validators *)

Lemma checkPermits_passes src check (rest : list (Permit T * Privilege * T)) :
  Passes src check ->
  checkPermits src (check :: rest)
  = run (checkCalls src check ++ calls (checkPermits src rest))
        (result (checkPermits src rest)).
Proof.
  destruct check as [[permit privilege] target].
  intros [approval [Hc [v [Hv Ht]]]]. simpl.
  rewrite (bind_Return _ _ _ Hc), Hv, bind_ret, Ht. reflexivity.
Qed.

Lemma checkPermits_fails src check (rest : list (Permit T * Privilege * T)) approval :
  FailsWith src check approval ->
  checkPermits src (check :: rest) = run (checkCalls src check) (Return approval).
Proof.
  destruct check as [[permit privilege] target].
  intros [Hc [v [Hv Hf]]]. simpl.
  rewrite (bind_Return _ _ _ Hc), Hv, bind_ret, Hf. simpl.
  now rewrite app_nil_r.
Qed.

(** C7: [checkPermits] takes the tuples one after the other and returns the
    Approval of the first that fails.  The tuples after it play no part:
    they do not appear in the result, and the functions invoked are those
    of the tuples up to the failing one.  When no tuple fails the result is
    [{value: true}]. *)
Theorem checkPermits_first_failure :
  (forall (passed : list (Permit T * Privilege * T)) failing rest approval,
      Forall (Passes First) passed ->
      FailsWith First failing approval ->
      checkPermits First (passed ++ failing :: rest)
      = run (concat (map (checkCalls First) (passed ++ [failing])))
            (Return approval)) /\
  (forall permits : list (Permit T * Privilege * T),
      Forall (Passes First) permits ->
      result (checkPermits First permits)
      = Return (object [("value", ABoolean true)])).
Proof.
  split.
  - intros passed failing rest approval Hp Hf.
    induction Hp as [|check passed Hc _ IH]; simpl.
    + rewrite app_nil_r. now apply checkPermits_fails.
    + change (checkPermits First (check :: passed ++ failing :: rest)
              = run (checkCalls First check
                     ++ concat (map (checkCalls First) (passed ++ [failing])))
                    (Return approval)).
      rewrite (checkPermits_passes _ _ _ Hc), IH. reflexivity.
  - intros permits Hp.
    induction Hp as [|check permits Hc _ IH]; [reflexivity|].
    now rewrite (checkPermits_passes _ _ _ Hc).
Qed.

(** ** Strings and empty arrays *)

(** C8: a string Permit evaluates to exactly one Role,
    [{value: s, error: Denial('Permit', s)}]; so [checkPermit] of ['x']
    against a Privilege that addresses no Role returns
    [{value: false, error: Denial('Permit', 'x')}]. *)
Theorem evaluatePermit_string src (target : T) :
  (forall s,
      exists d,
        Denial_new src "Permit" (AString s) = ret d /\
        IsDenial "Permit" (AString s) d /\
        evaluatePermit src (PermitValue (AString s)) target
        = ret [object [("value", AString s); ("error", d)]]) /\
  (forall name,
      exists d,
        Denial_new src "Permit" (AString "x") = ret d /\
        IsDenial "Permit" (AString "x") d /\
        result (checkPermit src (PermitValue (AString "x")) (addressesNothing name)
                  target)
        = Return (failed d)).
Proof.
  split.
  - intros s. destruct src; eexists;
      (split; [reflexivity|split; [eexists; reflexivity|reflexivity]]).
  - intros name. destruct src; eexists;
      (split; [reflexivity|split; [eexists; reflexivity|reflexivity]]).
Qed.

(** C9: [checkPermit] of an empty array is [{value: true}], an object with
    no [error] field, whatever the Privilege, which is not evaluated;
    [checkPermission] of an empty array is a denial with
    [Denial('Approval')]. *)
Theorem checkPermit_empty_array src privilege (target : T) :
  checkPermit src (PermitArray []) privilege target
  = ret (object [("value", ABoolean true)]) /\
  (exists d,
      IsDenial "Approval" AUndefined d /\
      checkPermission src (PermissionArray []) privilege target = ret (failed d)).
Proof.
  split; [reflexivity|].
  destruct src; eexists; (split; [eexists; reflexivity|reflexivity]).
Qed.

(** ** The two Denial constructors *)

(** C10, as the code has it: on every cause and every value that a template
    literal converts, the two variants' constructors give Denials with the
    same [cause] and [value] fields and with different messages. *)
Theorem Denial_messages_differ cause value s :
  ToString value = Return s ->
  exists message1 message2,
    Denial_new First cause value = ret (DenialObject message1 cause value) /\
    Denial_new Second cause value = ret (DenialObject message2 cause value) /\
    message1 <> message2.
Proof.
  intros Hs. unfold Denial_new, Denial_message. rewrite Hs.
  destruct (is_undefined value); simpl; do 2 eexists;
    (split; [reflexivity|split; [reflexivity|]]);
    intros H; injection H as H.
  - now apply append_not_longer in H.
  - symmetry in H. now apply append_not_longer in H.
Qed.

End Properties.

(** * Concrete runs *)

(** [['a', 'b', 'c']] against a Privilege that grants ['a'] and says
    nothing of any other Role: the Role ['b'] decides, with its own error,
    and the Privilege is invoked twice. *)
Lemma checkPermit_scans_roles_witness :
  let grant :=
    PrivilegeFunction "grant" (fun role =>
      match role with
      | AObject _ [("value", AString "a"); _] => PrivilegeValue (ABoolean true)
      | _ => PrivilegeArray []
      end) in
  let permit :=
    PermitArray [PermitValue (AString "a"); PermitValue (AString "b");
                 PermitValue (AString "c")] in
  let role s :=
    object [("value", AString s);
            ("error", DenialObject "Denial: Permit" "Permit" (AString s))] in
  let out := Return (failed (DenialObject "Denial: Permit" "Permit" (AString "b"))) in
  result (evaluatePermit (host := plain) First permit tt)
  = Return [role "a"; role "b"; role "c"] /\
  Scan (host := plain) First grant [role "a"; role "b"; role "c"]
    ["grant"; "grant"] out /\
  checkPermit (host := plain) First permit grant tt = run ["grant"; "grant"] out.
Proof.
  intros grant permit role out.
  assert (Hs : Scan (host := plain) First grant [role "a"; role "b"; role "c"]
                 ["grant"; "grant"] out).
  { refine (Scan_next First grant (role "a") [role "b"; role "c"]
              [object [("value", ABoolean true);
                       ("error", DenialObject "Denial: Privilege" "Privilege"
                                   (ABoolean true))]]
              ["grant"] out eq_refl _ _ _).
    - discriminate.
    - constructor; [|constructor]. exists (ABoolean true). split; reflexivity.
    - exact (Scan_implicit First grant (role "b") [role "c"]
               (DenialObject "Denial: Permit" "Permit" (AString "b"))
               eq_refl eq_refl). }
  split; [reflexivity|]. split; [exact Hs|].
  exact (checkPermit_scans_roles First permit grant tt _ _ _ eq_refl Hs).
Defined.

(** [[true, {value: false, error: e}, false]]: the second Approval is the
    first whose value is false. *)
Lemma checkPermission_spec_witness :
  let passed :=
    [object [("value", ABoolean true);
             ("error", DenialObject "Denial: Permission" "Permission" (ABoolean true))]] in
  let remaining :=
    [failed (DenialObject "Denial: Permission" "Permission" (ABoolean false))] in
  let permission :=
    PermissionArray [PermissionValue (ABoolean true);
                     PermissionValue (failed customError);
                     PermissionValue (ABoolean false)] in
  result (evaluatePermission (host := plain) First permission (PrivilegeValue ANull) tt)
  = Return (passed ++ failed customError :: remaining) /\
  Forall Approved passed /\
  Denied (failed customError) /\
  result (checkPermission (host := plain) First permission (PrivilegeValue ANull) tt)
  = Return (failed customError).
Proof.
  intros passed remaining permission.
  assert (Hp : Forall Approved passed).
  { constructor; [|constructor]. exists (ABoolean true). split; reflexivity. }
  assert (Hd : Denied (failed customError)).
  { exists (ABoolean false). split; reflexivity. }
  split; [reflexivity|]. split; [exact Hp|]. split; [exact Hd|].
  exact (proj1 (proj2 (proj2 (proj2
           (checkPermission_spec (host := plain) First (PrivilegeValue ANull) tt))))
           permission passed (failed customError) remaining eq_refl Hp Hd).
Defined.

(** A function and a nested array as siblings. *)
Lemma evaluatePermit_array_concat_witness :
  let role s :=
    object [("value", AString s);
            ("error", DenialObject "Denial: Permit" "Permit" (AString s))] in
  let p1 := PermitFunction "f" (fun _ : unit => PermitValue (AString "a")) in
  let p2 := PermitArray [PermitValue (AString "b"); PermitValue (object [])] in
  result (evaluatePermit (host := plain) First p1 tt) = Return [role "a"] /\
  result (evaluatePermit (host := plain) First p2 tt) = Return [role "b"; object []] /\
  result (evaluatePermit (host := plain) First (PermitArray [p1; p2]) tt)
  = Return ([role "a"] ++ [role "b"; object []]).
Proof.
  intros role p1 p2.
  split; [reflexivity|]. split; [reflexivity|].
  exact (proj1 (evaluatePermit_array_concat (host := plain) First p1 p2 tt)
           [role "a"] [role "b"; object []] eq_refl eq_refl).
Defined.

(** [requirePermit('x', false, t)]: the Denial thrown has the cause
    ['Privilege'], so it is not one whose cause is ['Permit']. *)
Lemma requirePermit_cause_counterexample :
  result (requirePermit (host := plain) First (PermitValue (AString "x"))
            (PrivilegeValue (ABoolean false)) tt)
  = Throw (DenialObject "Denial: Privilege" "Privilege" (ABoolean false)) /\
  ~ IsDenial "Permit" (ABoolean false)
      (DenialObject "Denial: Privilege" "Privilege" (ABoolean false)).
Proof.
  split; [reflexivity|]. intros [message H]. discriminate H.
Qed.

(** [evaluatePermit(null, t)]: [null] is no promise, array, string, Role
    object or function, and is returned as a Role all the same. *)
Lemma evaluatePermit_null_counterexample :
  isRoleObject ANull = false /\
  typeof ANull <> "string" /\
  evaluatePermit (host := plain) First (PermitValue ANull) tt = ret [ANull] /\
  evaluatePermit (host := plain) Second (PermitValue ANull) tt = ret [ANull].
Proof. repeat split. discriminate. Qed.

(** The number [5] as a Permit. *)
Lemma evaluatePermit_invalid_type_witness :
  typeof (ANumber 5) <> "string" /\
  typeof (ANumber 5) <> "object" /\
  evaluatePermit (host := plain) First (PermitValue (ANumber 5)) tt
  = throw (Error "Invalid Permit Type").
Proof.
  assert (Hs : typeof (ANumber 5) <> "string") by discriminate.
  assert (Ho : typeof (ANumber 5) <> "object") by discriminate.
  split; [exact Hs|]. split; [exact Ho|].
  exact (evaluatePermit_invalid_type (host := plain) First (ANumber 5) tt Hs Ho).
Defined.

(** Three tuples: the first passes, the second fails, and the third, whose
    Permit is a spy returning a number, would throw if it were evaluated. *)
Lemma checkPermits_first_failure_witness :
  let first :=
    (PermitFunction "p1" (fun _ : unit => PermitValue (AString "a")),
     PrivilegeValue (ABoolean true), tt) in
  let second :=
    (PermitValue (AString "b"),
     PrivilegeFunction "deny" (fun _ => PrivilegeValue (ABoolean false)), tt) in
  let third :=
    (PermitFunction "spy" (fun _ : unit => PermitValue (ANumber 5)),
     PrivilegeFunction "spy" (fun _ => PrivilegeValue (ANumber 5)), tt) in
  let approval := failed (DenialObject "Denial: Privilege" "Privilege" (ABoolean false)) in
  Forall (Passes (host := plain) First) [first] /\
  FailsWith (host := plain) First second approval /\
  result (checkPermit (host := plain) First (fst (fst third)) (snd (fst third)) tt)
  = Throw (Error "Invalid Permit Type") /\
  checkPermits (host := plain) First [first; second; third]
  = run ["p1"; "deny"] (Return approval).
Proof.
  intros first second third approval.
  assert (Hp : Forall (Passes (host := plain) First) [first]).
  { constructor; [|constructor].
    exists (object [("value", ABoolean true)]). split; [reflexivity|].
    exists (ABoolean true). split; reflexivity. }
  assert (Hf : FailsWith (host := plain) First second approval).
  { split; [reflexivity|]. exists (ABoolean false). split; reflexivity. }
  split; [exact Hp|]. split; [exact Hf|]. split; [reflexivity|].
  exact (proj1 (checkPermits_first_failure (host := plain))
           [first] second [third] approval Hp Hf).
Defined.

(** [new Denial('Permit', 'x')] in the two variants. *)
Lemma Denial_messages_differ_witness :
  ToString (host := plain) (AString "x") = Return "x" /\
  Denial_new (host := plain) First "Permit" (AString "x")
  = ret (DenialObject "Denial: Permit" "Permit" (AString "x")) /\
  Denial_new (host := plain) Second "Permit" (AString "x")
  = ret (DenialObject "Denial: Permit: x" "Permit" (AString "x")) /\
  exists message1 message2,
    Denial_new (host := plain) First "Permit" (AString "x")
    = ret (DenialObject message1 "Permit" (AString "x")) /\
    Denial_new (host := plain) Second "Permit" (AString "x")
    = ret (DenialObject message2 "Permit" (AString "x")) /\
    message1 <> message2.
Proof.
  split; [reflexivity|]. split; [reflexivity|]. split; [reflexivity|].
  exact (Denial_messages_differ (host := plain) "Permit" (AString "x") "x" eq_refl).
Defined.

(** * Properties of the checks and of the derived operations *)

Section Outcomes.

Context {T : Type} {host : Host}.

(** ** Reading a computation backwards *)

Lemma bind_Return_inv {A B} (m : Run A) (k : A -> Run B) b :
  result (bind m k) = Return b ->
  exists a, result m = Return a /\ result (k a) = Return b.
Proof.
  unfold bind. destruct (result m) as [a|e]; simpl; [|discriminate].
  intros H. now exists a.
Qed.



Lemma Get_cases o key :
  (exists v, Get o key = ret v) \/ Get o key = throw TypeError.
Proof. destruct o; simpl; try (left; eexists; reflexivity); now right. Qed.

Lemma firstDenied_Return approvals found :
  result (firstDenied approvals) = Return found ->
  match found with
  | Some approval => Denied approval /\ In approval approvals
  | None => Forall Approved approvals
  end.
Proof.
  revert found. induction approvals as [|a rest IH]; simpl; intros found H.
  - injection H as <-. constructor.
  - apply bind_Return_inv in H. destruct H as [v [Hv H]].
    apply Get_ret in Hv. destruct (ToBoolean v) eqn:Hb; simpl in H.
    + specialize (IH found H). destruct found as [approval|].
      * split; [apply IH|right; apply IH].
      * constructor; [exists v; now split|exact IH].
    + injection H as <-. split; [exists v; now split|now left].
Qed.



(** ** What a check returns *)

Lemma checkRoles_Return src privilege roles approval :
  result (checkRoles src privilege roles) = Return approval ->
  approval = approvedObject \/ Denied approval.
Proof.
  induction roles as [|role rest IH]; simpl; intros H.
  - left. now injection H.
  - apply bind_Return_inv in H. destruct H as [approvals [_ H]].
    destruct (length approvals =? 0)%nat.
    + apply bind_Return_inv in H. destruct H as [error [_ H]].
      injection H as <-. right. now apply Denied_object.
    + apply bind_Return_inv in H. destruct H as [found [Hf H]].
      apply firstDenied_Return in Hf. destruct found as [a|].
      * injection H as <-. right. apply Hf.
      * now apply IH.
Qed.

(** X1: whatever the Permit and the Privilege, an Approval that [checkPermit]
    returns is either [{value: true}] itself or one whose [value] reads as
    false. *)
Theorem checkPermit_Return src (permit : Permit T) privilege target approval :
  result (checkPermit src permit privilege target) = Return approval ->
  approval = approvedObject \/ Denied approval.
Proof.
  unfold checkPermit. intros H.
  apply bind_Return_inv in H. destruct H as [roles [_ H]].
  now apply checkRoles_Return in H.
Qed.

Lemma checkPermission_Return_cases src (permission : Permission T) privilege target
    approval :
  result (checkPermission src permission privilege target) = Return approval ->
  approval = approvedObject \/ Denied approval.
Proof.
  unfold checkPermission. intros H.
  apply bind_Return_inv in H. destruct H as [approvals [_ H]].
  destruct (length approvals =? 0)%nat.
  - apply bind_Return_inv in H. destruct H as [d [_ H]].
    injection H as <-. right. now apply Denied_object.
  - apply bind_Return_inv in H. destruct H as [found [Hf H]].
    apply firstDenied_Return in Hf. destruct found as [a|]; injection H as <-.
    + right. apply Hf.
    + now left.
Qed.

(** X2: an Approval that [checkPermission] returns is either
    [{value: true}] itself or one whose [value] reads as false. *)
Theorem checkPermission_Return src (permission : Permission T) privilege target
    approval :
  result (checkPermission src permission privilege target) = Return approval ->
  approval = approvedObject \/ Denied approval.
Proof. apply checkPermission_Return_cases. Qed.

(** ** What a check throws *)




End Outcomes.

Section Compositions.

Context {T : Type} {host : Host}.

(** ** Boolean privileges *)

Lemma evaluatePrivilege_boolean src b role :
  exists d,
    IsDenial "Privilege" (ABoolean b) d /\
    evaluatePrivilege src (PrivilegeValue (ABoolean b)) role
    = ret [object [("value", ABoolean b); ("error", d)]].
Proof.
  destruct src, b; eexists; (split; [eexists; reflexivity|reflexivity]).
Qed.

Lemma checkRoles_true src roles :
  checkRoles src (PrivilegeValue (ABoolean true)) roles = ret approvedObject.
Proof.
  induction roles as [|role rest IH]; [reflexivity|].
  destruct (evaluatePrivilege_boolean src true role) as [d [_ He]].
  cbn [checkRoles]. rewrite He, bind_ret. cbn [length Nat.eqb firstDenied].
  cbn [object Get lookup]. rewrite bind_ret. simpl. rewrite bind_ret. exact IH.
Qed.

(** X5: the Privilege [true] approves every Permit that evaluates to Roles,
    whatever the Roles are, and invokes nothing of its own. *)
Theorem checkPermit_true src (permit : Permit T) target roles :
  result (evaluatePermit src permit target) = Return roles ->
  checkPermit src permit (PrivilegeValue (ABoolean true)) target
  = run (calls (evaluatePermit src permit target)) (Return approvedObject).
Proof.
  intros He. unfold checkPermit.
  rewrite (bind_Return _ _ _ He), checkRoles_true. simpl. now rewrite app_nil_r.
Qed.

(** X6: the Privilege [false] denies a Permit with the Denial of cause
    ['Privilege'] and value [false] as soon as the Permit has one Role, and
    approves a Permit that has none. *)
Theorem checkPermit_false src (permit : Permit T) target roles :
  result (evaluatePermit src permit target) = Return roles ->
  exists d,
    IsDenial "Privilege" (ABoolean false) d /\
    result (checkPermit src permit (PrivilegeValue (ABoolean false)) target)
    = Return (match roles with [] => approvedObject | _ :: _ => failed d end).
Proof.
  intros He. unfold checkPermit. rewrite (result_bind _ _ _ He).
  destruct roles as [|role rest].
  - destruct (evaluatePrivilege_boolean src false ANull) as [d [Hd _]].
    exists d. split; [exact Hd|reflexivity].
  - destruct (evaluatePrivilege_boolean src false role) as [d [Hd Hp]].
    exists d. split; [exact Hd|].
    cbn [checkRoles]. now rewrite Hp, bind_ret.
Qed.

(** ** Arrays *)

Lemma all_results_app {A} (xs ys : list (Completion A)) :
  all_results (xs ++ ys)
  = match all_results xs with
    | Return a =>
        match all_results ys with
        | Return b => Return (a ++ b)
        | Throw e => Throw e
        end
    | Throw e => Throw e
    end.
Proof.
  induction xs as [|[a|e] xs IH]; simpl.
  - now destruct (all_results ys).
  - rewrite IH. destruct (all_results xs); [|reflexivity].
    now destruct (all_results ys).
  - reflexivity.
Qed.

Lemma all_results_Return_inv {A} (rs : list (Completion A)) vs :
  all_results rs = Return vs -> Forall2 (fun r v => r = Return v) rs vs.
Proof.
  revert vs. induction rs as [|[a|e] rs IH]; simpl; intros vs H.
  - injection H as <-. constructor.
  - destruct (all_results rs) as [l|]; [|discriminate].
    injection H as <-. constructor; [reflexivity|now apply IH].
  - discriminate.
Qed.

Lemma array_result {A B} (f : A -> Run (list B)) (xs : list A) :
  result (it <- Promise_all (map f xs) ;; ret (concat it))
  = match all_results (map (fun x => result (f x)) xs) with
    | Return vs => Return (concat vs)
    | Throw e => Throw e
    end.
Proof.
  unfold bind. simpl. rewrite map_map.
  now destruct (all_results (map (fun x => result (f x)) xs)).
Qed.

Lemma array_Return_iff {A B} (f : A -> Run (list B)) (xs : list A) out :
  result (it <- Promise_all (map f xs) ;; ret (concat it)) = Return out <->
  exists vs, Forall2 (fun x v => result (f x) = Return v) xs vs /\ out = concat vs.
Proof.
  rewrite array_result. split.
  - destruct (all_results (map (fun x => result (f x)) xs)) as [vs|e] eqn:Ha;
      [|discriminate].
    intros H. injection H as <-. exists vs. split; [|reflexivity].
    apply all_results_Return_inv in Ha.
    clear - Ha. revert vs Ha.
    induction xs as [|x xs IH]; intros vs Ha; inversion Ha; subst; constructor;
      [assumption|now apply IH].
  - intros [vs [Hf ->]].
    rewrite (all_results_Return (map (fun x => result (f x)) xs) vs);
      [reflexivity|].
    induction Hf; simpl; constructor; assumption.
Qed.

Lemma array_flatten {A B} (f : A -> Run (list B)) (xss : list (list A)) :
  result (it <- Promise_all
                  (map (fun xs => it <- Promise_all (map f xs) ;; ret (concat it)) xss) ;;
          ret (concat it))
  = result (it <- Promise_all (map f (concat xss)) ;; ret (concat it)).
Proof.
  rewrite !array_result.
  induction xss as [|xs xss IH]; [reflexivity|].
  simpl. rewrite map_app, all_results_app, array_result.
  destruct (all_results (map (fun x => result (f x)) xs)) as [vs|e];
    [|reflexivity].
  destruct (all_results
              (map (fun x => result (it <- Promise_all (map f x) ;; ret (concat it)))
                 xss)) as [vss|e];
    destruct (all_results (map (fun x => result (f x)) (concat xss))) as [ws|e'];
    try discriminate; try assumption.
  injection IH as IH. simpl. now rewrite concat_app, IH.
Qed.

(** X7: nesting arrays changes nothing of what an evaluator gives: an array
    of arrays has the result of the one array of all their elements, for
    Permits, Privileges and Permissions alike, also when an element
    throws. *)
Theorem evaluate_nested_arrays src target role privilege :
  (forall pss : list (list (Permit T)),
      result (evaluatePermit src (PermitArray (map PermitArray pss)) target)
      = result (evaluatePermit src (PermitArray (concat pss)) target)) /\
  (forall pss : list (list Privilege),
      result (evaluatePrivilege src (PrivilegeArray (map PrivilegeArray pss)) role)
      = result (evaluatePrivilege src (PrivilegeArray (concat pss)) role)) /\
  (forall pss : list (list (Permission T)),
      result (evaluatePermission src (PermissionArray (map PermissionArray pss))
                privilege target)
      = result (evaluatePermission src (PermissionArray (concat pss))
                  privilege target)).
Proof.
  repeat split; intros pss; simpl; rewrite map_map.
  - exact (array_flatten (fun it => evaluatePermit src it target) pss).
  - exact (array_flatten (fun it => evaluatePrivilege src it role) pss).
  - exact (array_flatten (fun it => evaluatePermission src it privilege target) pss).
Qed.

(** X8: an array of Privileges returns exactly when every sibling returns,
    and then gives the siblings' Approvals, sibling after sibling. *)
Theorem evaluatePrivilege_array src (ps : list Privilege) role approvals :
  result (evaluatePrivilege src (PrivilegeArray ps) role) = Return approvals <->
  exists each,
    Forall2 (fun p r => result (evaluatePrivilege src p role) = Return r) ps each /\
    approvals = concat each.
Proof. exact (array_Return_iff (fun it => evaluatePrivilege src it role) ps approvals). Qed.

(** X9: an array of Permissions returns exactly when every sibling returns,
    and then gives the siblings' Approvals, sibling after sibling. *)
Theorem evaluatePermission_array src (ps : list (Permission T)) privilege target
    approvals :
  result (evaluatePermission src (PermissionArray ps) privilege target)
  = Return approvals <->
  exists each,
    Forall2 (fun p r => result (evaluatePermission src p privilege target) = Return r)
      ps each /\
    approvals = concat each.
Proof.
  exact (array_Return_iff (fun it => evaluatePermission src it privilege target)
           ps approvals).
Qed.

End Compositions.

Section DerivedOperations.

Context {T : Type} {host : Host}.

Lemma Approved_not_Denied approval : Approved approval -> Denied approval -> False.
Proof.
  intros [v [Hv Ht]] [w [Hw Hf]]. rewrite Hv in Hw.
  injection Hw as <-. congruence.
Qed.

Lemma Approved_approvedObject : Approved approvedObject.
Proof. exists (ABoolean true). split; reflexivity. Qed.

Lemma approved_cases approval :
  approval = approvedObject \/ Denied approval ->
  Approved approval -> approval = approvedObject.
Proof.
  intros [H|H] Ha; [exact H|]. destruct (Approved_not_Denied _ Ha H).
Qed.

Lemma checkPermit_Return_cases src (permit : Permit T) privilege target approval :
  result (checkPermit src permit privilege target) = Return approval ->
  approval = approvedObject \/ Denied approval.
Proof.
  unfold checkPermit. intros H.
  apply bind_Return_inv in H. destruct H as [roles [_ H]].
  now apply checkRoles_Return in H.
Qed.

(** ** Bulk validators *)

Lemma checkPermissions_passes src check
    (rest : list (Permission T * Privilege * T)) :
  PassesPermission src check ->
  checkPermissions src (check :: rest)
  = run (permissionCalls src check ++ calls (checkPermissions src rest))
        (result (checkPermissions src rest)).
Proof.
  destruct check as [[permission privilege] target].
  intros [approval [Hc [v [Hv Ht]]]]. simpl.
  rewrite (bind_Return _ _ _ Hc), Hv, bind_ret, Ht. reflexivity.
Qed.

Lemma checkPermissions_fails src check
    (rest : list (Permission T * Privilege * T)) approval :
  FailsPermissionWith src check approval ->
  checkPermissions src (check :: rest)
  = run (permissionCalls src check) (Return approval).
Proof.
  destruct check as [[permission privilege] target].
  intros [Hc [v [Hv Hf]]]. simpl.
  rewrite (bind_Return _ _ _ Hc), Hv, bind_ret, Hf. simpl.
  now rewrite app_nil_r.
Qed.

Lemma checkPermissions_stops src
    (passed : list (Permission T * Privilege * T)) failing rest approval :
  Forall (PassesPermission src) passed ->
  FailsPermissionWith src failing approval ->
  checkPermissions src (passed ++ failing :: rest)
  = run (concat (map (permissionCalls src) (passed ++ [failing]))) (Return approval).
Proof.
  intros Hp Hf. induction Hp as [|check passed Hc _ IH]; simpl.
  - rewrite app_nil_r. now apply checkPermissions_fails.
  - change (checkPermissions src (check :: passed ++ failing :: rest)
            = run (permissionCalls src check
                   ++ concat (map (permissionCalls src) (passed ++ [failing])))
                  (Return approval)).
    rewrite (checkPermissions_passes _ _ _ Hc), IH. reflexivity.
Qed.

Lemma checkPermits_stops src
    (passed : list (Permit T * Privilege * T)) failing rest approval :
  Forall (Passes src) passed ->
  FailsWith src failing approval ->
  checkPermits src (passed ++ failing :: rest)
  = run (concat (map (checkCalls src) (passed ++ [failing]))) (Return approval).
Proof.
  intros Hp Hf. induction Hp as [|check passed Hc _ IH]; simpl.
  - rewrite app_nil_r. now apply checkPermits_fails.
  - change (checkPermits src (check :: passed ++ failing :: rest)
            = run (checkCalls src check
                   ++ concat (map (checkCalls src) (passed ++ [failing])))
                  (Return approval)).
    rewrite (checkPermits_passes _ _ _ Hc), IH. reflexivity.
Qed.

(** X10: [checkPermissions] returns the Approval of the first tuple that
    fails, and the functions invoked are those of the tuples up to it: the
    tuples after it are not evaluated. *)
Theorem checkPermissions_first_failure
    (passed : list (Permission T * Privilege * T)) failing rest approval :
  Forall (PassesPermission First) passed ->
  FailsPermissionWith First failing approval ->
  checkPermissions First (passed ++ failing :: rest)
  = run (concat (map (permissionCalls First) (passed ++ [failing])))
        (Return approval).
Proof. apply checkPermissions_stops. Qed.

Lemma checkPermits_Return_cases src (permits : list (Permit T * Privilege * T))
    approval :
  result (checkPermits src permits) = Return approval ->
  approval = approvedObject \/
  (Denied approval /\ exists check, In check permits /\ FailsWith src check approval).
Proof.
  induction permits as [|[[permit privilege] target] rest IH]; simpl; intros H.
  - left. now injection H.
  - apply bind_Return_inv in H. destruct H as [a [Hc H]].
    apply bind_Return_inv in H. destruct H as [v [Hv H]].
    apply Get_ret in Hv. destruct (ToBoolean v) eqn:Hb; simpl in H.
    + destruct (IH H) as [->|[Hd [check [Hin Hf]]]]; [now left|].
      right. split; [exact Hd|]. exists check. split; [now right|exact Hf].
    + injection H as <-.
      assert (Hd : Denied a) by (exists v; now split).
      right. split; [exact Hd|].
      exists (permit, privilege, target). split; [now left|now split].
Qed.

Lemma checkPermissions_Return_cases src
    (permissions : list (Permission T * Privilege * T)) approval :
  result (checkPermissions src permissions) = Return approval ->
  approval = approvedObject \/
  (Denied approval /\
   exists check, In check permissions /\ FailsPermissionWith src check approval).
Proof.
  induction permissions as [|[[permission privilege] target] rest IH]; simpl;
    intros H.
  - left. now injection H.
  - apply bind_Return_inv in H. destruct H as [a [Hc H]].
    apply bind_Return_inv in H. destruct H as [v [Hv H]].
    apply Get_ret in Hv. destruct (ToBoolean v) eqn:Hb; simpl in H.
    + destruct (IH H) as [->|[Hd [check [Hin Hf]]]]; [now left|].
      right. split; [exact Hd|]. exists check. split; [now right|exact Hf].
    + injection H as <-.
      assert (Hd : Denied a) by (exists v; now split).
      right. split; [exact Hd|].
      exists (permission, privilege, target). split; [now left|now split].
Qed.

(** X11: an Approval that [checkPermits] returns is either [{value: true}]
    itself or the failed Approval that [checkPermit] returned for one of the
    tuples. *)
Theorem checkPermits_Return (permits : list (Permit T * Privilege * T)) approval :
  result (checkPermits First permits) = Return approval ->
  approval = approvedObject \/
  (Denied approval /\
   exists check, In check permits /\ FailsWith First check approval).
Proof. apply checkPermits_Return_cases. Qed.

(** ** Require *)

Lemma throwDenied_Return src category approval u :
  result (throwDenied src category approval) = Return u -> Approved approval.
Proof.
  unfold throwDenied. intros H.
  apply bind_Return_inv in H. destruct H as [v [Hv H]]. apply Get_ret in Hv.
  destruct (ToBoolean v) eqn:Hb; simpl in H.
  - exists v. now split.
  - apply bind_Return_inv in H. destruct H as [error [_ H]].
    destruct (is_wrapped (typeof error)); [|discriminate].
    apply bind_Return_inv in H. destruct H as [d [_ H]]. discriminate.
Qed.

(** X12: [requirePermit] returns exactly when [checkPermit] returns
    [{value: true}]; it then returns nothing in the first variant and the
    target in the second. *)
Theorem requirePermit_returns src (permit : Permit T) privilege target r :
  result (requirePermit src permit privilege target) = Return r <->
  result (checkPermit src permit privilege target) = Return approvedObject /\
  r = required src target.
Proof.
  unfold requirePermit. split.
  - intros H. apply bind_Return_inv in H. destruct H as [approval [Hc H]].
    apply bind_Return_inv in H. destruct H as [u [Ht H]].
    apply throwDenied_Return in Ht. injection H as <-.
    rewrite Hc. split; [|reflexivity]. f_equal.
    exact (approved_cases _ (checkPermit_Return_cases _ _ _ _ _ Hc) Ht).
  - intros [Hc ->]. now rewrite (result_bind _ _ _ Hc).
Qed.

(** X13: [requirePermission] returns exactly when [checkPermission] returns
    [{value: true}]; it then returns nothing in the first variant and the
    target in the second. *)
Theorem requirePermission_returns src (permission : Permission T) privilege target r :
  result (requirePermission src permission privilege target) = Return r <->
  result (checkPermission src permission privilege target) = Return approvedObject /\
  r = required src target.
Proof.
  unfold requirePermission. split.
  - intros H. apply bind_Return_inv in H. destruct H as [approval [Hc H]].
    apply bind_Return_inv in H. destruct H as [u [Ht H]].
    apply throwDenied_Return in Ht. injection H as <-.
    rewrite Hc. split; [|reflexivity]. f_equal.
    exact (approved_cases _ (checkPermission_Return_cases _ _ _ _ _ Hc) Ht).
  - intros [Hc ->]. now rewrite (result_bind _ _ _ Hc).
Qed.

(** X14: when [checkPermit] failed with the error [error], [requirePermit]
    throws a fresh Denial of cause ['Permit'] and value [error] if [error]
    is a string, a boolean, a number, a bigint or [undefined], and throws
    [error] itself otherwise: an object, and also [null] or a symbol. *)
Theorem requirePermit_denied src (permit : Permit T) privilege target approval error :
  result (checkPermit src permit privilege target) = Return approval ->
  Denied approval ->
  Get approval "error" = ret error ->
  if is_wrapped (typeof error)
  then exists d, IsDenial "Permit" error d /\
                 result (requirePermit src permit privilege target) = Throw d
  else result (requirePermit src permit privilege target) = Throw error.
Proof.
  intros Hc Hd He. unfold requirePermit. rewrite (result_bind _ _ _ Hc).
  destruct (is_wrapped (typeof error)) eqn:Hw.
  - destruct (throwDenied_wraps src "Permit" approval error Hd He Hw) as [d [Hi Ht]].
    exists d. split; [exact Hi|]. now rewrite Ht.
  - now rewrite (throwDenied_verbatim _ _ _ _ Hd He Hw).
Qed.

Lemma throwError_throws approval error :
  Denied approval -> Get approval "error" = ret error ->
  throwError approval = throw error.
Proof.
  intros [v [Hv Hf]] He. unfold throwError.
  now rewrite Hv, bind_ret, Hf, He, bind_ret.
Qed.

(** X15: [requirePermits] throws the error of the first failing tuple as it
    is, a primitive too: nothing is wrapped into a Denial at the bulk
    layer. *)
Theorem requirePermits_throws
    (passed : list (Permit T * Privilege * T)) failing rest approval error :
  Forall (Passes First) passed ->
  FailsWith First failing approval ->
  Get approval "error" = ret error ->
  result (requirePermits First (passed ++ failing :: rest)) = Throw error.
Proof.
  intros Hp Hf He. unfold requirePermits.
  rewrite (checkPermits_stops First passed failing rest approval Hp Hf).
  rewrite bind_Return with (a := approval); [|reflexivity].
  destruct failing as [[permit privilege] target]. destruct Hf as [_ Hd].
  now rewrite (throwError_throws _ _ Hd He).
Qed.

(** X16: [requirePermissions] throws the error of the first failing tuple
    as it is, a primitive too. *)
Theorem requirePermissions_throws
    (passed : list (Permission T * Privilege * T)) failing rest approval error :
  Forall (PassesPermission First) passed ->
  FailsPermissionWith First failing approval ->
  Get approval "error" = ret error ->
  result (requirePermissions First (passed ++ failing :: rest)) = Throw error.
Proof.
  intros Hp Hf He. unfold requirePermissions.
  rewrite (checkPermissions_stops First passed failing rest approval Hp Hf).
  rewrite bind_Return with (a := approval); [|reflexivity].
  destruct failing as [[permission privilege] target]. destruct Hf as [_ Hd].
  now rewrite (throwError_throws _ _ Hd He).
Qed.

(** ** Is *)

Lemma value_of_check (check : Run Any) :
  (forall approval,
      result check = Return approval ->
      approval = approvedObject \/ Denied approval) ->
  (result (it <- check ;; Get it "value") = Return (ABoolean true) <->
   result check = Return approvedObject) /\
  (forall v,
      result (it <- check ;; Get it "value") = Return v ->
      v = ABoolean true \/ ToBoolean v = false).
Proof.
  intros Hcases. split; [split|].
  - intros H. apply bind_Return_inv in H. destruct H as [approval [Hc Hv]].
    apply Get_ret in Hv. rewrite Hc. f_equal.
    apply (approved_cases _ (Hcases _ Hc)). exists (ABoolean true). now split.
  - intros Hc. now rewrite (result_bind _ _ _ Hc).
  - intros v H. apply bind_Return_inv in H. destruct H as [approval [Hc Hv]].
    apply Get_ret in Hv. destruct (Hcases _ Hc) as [->|[w [Hw Hf]]].
    + left. now injection Hv.
    + right. rewrite Hv in Hw. now injection Hw as ->.
Qed.

(** X17: [isPermitted] gives [true] exactly when [checkPermit] returns
    [{value: true}], and [isPermissioned] exactly when [checkPermission]
    does; any other value they give reads as false. *)
Theorem is_true_iff_approved src (permit : Permit T) (permission : Permission T)
    privilege target :
  ((result (isPermitted src permit privilege target) = Return (ABoolean true) <->
    result (checkPermit src permit privilege target) = Return approvedObject) /\
   (forall v, result (isPermitted src permit privilege target) = Return v ->
              v = ABoolean true \/ ToBoolean v = false)) /\
  ((result (isPermissioned src permission privilege target) = Return (ABoolean true) <->
    result (checkPermission src permission privilege target) = Return approvedObject) /\
   (forall v, result (isPermissioned src permission privilege target) = Return v ->
              v = ABoolean true \/ ToBoolean v = false)).
Proof.
  split.
  - apply value_of_check. intros approval. apply checkPermit_Return_cases.
  - apply value_of_check. intros approval. apply checkPermission_Return_cases.
Qed.

(** X18: [arePermitted] gives [true] exactly when [checkPermits] returns
    [{value: true}], and [arePermissioned] exactly when [checkPermissions]
    does; any other value they give reads as false. *)
Theorem are_true_iff_approved (permits : list (Permit T * Privilege * T))
    (permissions : list (Permission T * Privilege * T)) :
  ((result (arePermitted First permits) = Return (ABoolean true) <->
    result (checkPermits First permits) = Return approvedObject) /\
   (forall v, result (arePermitted First permits) = Return v ->
              v = ABoolean true \/ ToBoolean v = false)) /\
  ((result (arePermissioned First permissions) = Return (ABoolean true) <->
    result (checkPermissions First permissions) = Return approvedObject) /\
   (forall v, result (arePermissioned First permissions) = Return v ->
              v = ABoolean true \/ ToBoolean v = false)).
Proof.
  split.
  - apply value_of_check. intros approval H.
    destruct (checkPermits_Return_cases _ _ _ H) as [->|[Hd _]]; [now left|now right].
  - apply value_of_check. intros approval H.
    destruct (checkPermissions_Return_cases _ _ _ H) as [->|[Hd _]];
      [now left|now right].
Qed.

End DerivedOperations.

Section RoleSetProperties.

Context {T : Type} {host : Host}.

Variable identical : Any -> Any -> bool.

(** ** Sets of values *)

Lemma SameValueZero_structural x y :
  structural x = true -> SameValueZero identical x y = true <-> x = y.
Proof.
  intros Hx.
  destruct x as [| |a|a|a|a|a|c fs], y as [| |b|b|b|b|b|c' fs']; simpl in *;
    try discriminate; try (split; [discriminate|congruence]);
    try (split; reflexivity).
  - rewrite Bool.eqb_true_iff. split; congruence.
  - rewrite Z.eqb_eq. split; congruence.
  - rewrite Z.eqb_eq. split; congruence.
  - rewrite String.eqb_eq. split; congruence.
Qed.

Lemma existsb_SameValueZero v set :
  structural v = true -> existsb (SameValueZero identical v) set = true <-> In v set.
Proof.
  intros Hv. rewrite existsb_exists. split.
  - intros [x [Hin Hs]]. apply (SameValueZero_structural _ _ Hv) in Hs. now subst.
  - intros Hin. exists v. split; [exact Hin|].
    now apply SameValueZero_structural.
Qed.

Lemma Set_add_In set v x :
  structural v = true ->
  In x (Set_add identical set v) <-> In x set \/ x = v.
Proof.
  intros Hv. unfold Set_add.
  destruct (existsb (SameValueZero identical v) set) eqn:He.
  - apply (existsb_SameValueZero _ _ Hv) in He. split; [now left|].
    intros [H| ->]; assumption.
  - rewrite in_app_iff. simpl. intuition.
Qed.

Lemma Set_add_absorbs set v :
  structural v = true -> In v set -> Set_add identical set v = set.
Proof.
  intros Hv Hin. unfold Set_add.
  apply (existsb_SameValueZero _ _ Hv) in Hin. now rewrite Hin.
Qed.

Lemma Set_add_NoDup set v :
  structural v = true -> NoDup set -> NoDup (Set_add identical set v).
Proof.
  intros Hv Hn. unfold Set_add.
  destruct (existsb (SameValueZero identical v) set) eqn:He; [exact Hn|].
  assert (Hnot : ~ In v set).
  { intros Hin. apply (existsb_SameValueZero _ _ Hv) in Hin. congruence. }
  apply NoDup_app; [exact Hn|repeat constructor; intros []|].
  intros a Ha [<-|[]]. now apply Hnot.
Qed.

Lemma fold_Set_add_In l : forall set x,
  Forall (fun v => structural v = true) l ->
  In x (fold_left (Set_add identical) l set) <-> In x set \/ In x l.
Proof.
  induction l as [|v l IH]; simpl; intros set x Hl; [intuition|].
  inversion Hl as [|? ? Hv Hrest]; subst.
  rewrite (IH _ _ Hrest), (Set_add_In _ _ _ Hv). intuition.
Qed.

Lemma fold_Set_add_NoDup l : forall set,
  Forall (fun v => structural v = true) l ->
  NoDup set -> NoDup (fold_left (Set_add identical) l set).
Proof.
  induction l as [|v l IH]; simpl; intros set Hl Hn; [exact Hn|].
  inversion Hl as [|? ? Hv Hrest]; subst.
  apply IH; [exact Hrest|]. now apply Set_add_NoDup.
Qed.

(** Putting into a set what is a set already adds what its elements add. *)
Lemma fold_Set_add_Set_new l : forall set,
  Forall (fun v => structural v = true) l ->
  fold_left (Set_add identical) (Set_new identical l) set
  = fold_left (Set_add identical) l set.
Proof.
  unfold Set_new. induction l as [|x l IH] using rev_ind; intros set Hl;
    [reflexivity|].
  apply Forall_app in Hl. destruct Hl as [Hl Hx].
  inversion Hx as [|? ? Hsx _]; subst.
  rewrite !fold_left_app. simpl. unfold Set_add at 2.
  destruct (existsb (SameValueZero identical x)
              (fold_left (Set_add identical) l [])) eqn:He.
  - rewrite (IH _ Hl).
    apply (existsb_SameValueZero _ _ Hsx) in He.
    apply (fold_Set_add_In _ _ _ Hl) in He. destruct He as [[]|He].
    symmetry. apply (Set_add_absorbs _ _ Hsx).
    apply (fold_Set_add_In _ _ _ Hl). now right.
  - rewrite fold_left_app. simpl. now rewrite (IH _ Hl).
Qed.

Lemma Set_new_concat (lists : list (list Any)) : forall set,
  Forall (fun v => structural v = true) (concat lists) ->
  fold_left (Set_add identical) (concat (map (Set_new identical) lists)) set
  = fold_left (Set_add identical) (concat lists) set.
Proof.
  induction lists as [|l lists IH]; simpl; intros set Hl; [reflexivity|].
  apply Forall_app in Hl. destruct Hl as [Hl Hrest].
  now rewrite !fold_left_app, (fold_Set_add_Set_new _ _ Hl), (IH _ Hrest).
Qed.

(** ** Role sets *)

(** X19: when the values of the Roles of a Permit are strings (or other
    primitives that are no symbols), [createRoleSet] gives each of them
    once: a list without duplicates that has exactly these values. *)
Theorem createRoleSet_set src (permit : Permit T) target roles vs :
  result (evaluatePermit src permit target) = Return roles ->
  result (values roles) = Return vs ->
  Forall (fun v => structural v = true) vs ->
  exists set,
    result (createRoleSet identical src permit target) = Return set /\
    NoDup set /\
    (forall v, In v set <-> In v vs).
Proof.
  intros He Hv Hs. exists (Set_new identical vs). repeat split.
  - unfold createRoleSet. now rewrite (result_bind _ _ _ He), (result_bind _ _ _ Hv).
  - apply fold_Set_add_NoDup; [exact Hs|constructor].
  - intros H. apply (fold_Set_add_In _ _ _ Hs) in H. now destruct H.
  - intros H. apply (fold_Set_add_In _ _ _ Hs). now right.
Qed.

Lemma createRoleSet_result src (permit : Permit T) target roles vs :
  result (evaluatePermit src permit target) = Return roles ->
  result (values roles) = Return vs ->
  result (createRoleSet identical src permit target)
  = Return (Set_new identical vs).
Proof.
  intros He Hv. unfold createRoleSet.
  now rewrite (result_bind _ _ _ He), (result_bind _ _ _ Hv).
Qed.

(** X20: [createRoleSets] gives the set of the values of the Roles of all
    its Permits, taken in the order of the Permits: removing the
    duplicates per Permit first changes nothing. *)
Theorem createRoleSets_set (permits : list (Permit T * T)) (each : list (list Any)) :
  Forall2 (fun (check : Permit T * T) vs =>
             exists roles,
               result (evaluatePermit First (fst check) (snd check)) = Return roles /\
               result (values roles) = Return vs)
          permits each ->
  Forall (fun v => structural v = true) (concat each) ->
  result (createRoleSets identical First permits)
  = Return (Set_new identical (concat each)).
Proof.
  intros Hf Hs. unfold createRoleSets.
  assert (Ha : result (Promise_all
                         (map (fun '(p, t) => createRoleSet identical First p t) permits))
               = Return (map (Set_new identical) each)).
  { simpl. apply all_results_Return. rewrite map_map.
    induction Hf as [|[p t] vs permits each [roles [He Hv]] _ IH]; simpl;
      constructor.
    - exact (createRoleSet_result First p t roles vs He Hv).
    - apply IH. simpl in Hs. apply Forall_app in Hs. apply Hs. }
  rewrite (result_bind _ _ _ Ha), bind_ret. simpl.
  f_equal. unfold Set_new at 1. exact (Set_new_concat each [] Hs).
Qed.

(** [it.map(it => it.value)] throws on a Role that is [null]. *)
Lemma values_null roles rest :
  Forall (fun role => exists v, Get role "value" = ret v) roles ->
  result (values (roles ++ ANull :: rest)) = Throw TypeError.
Proof.
  induction 1 as [|role roles [v Hv] _ IH]; simpl; [reflexivity|].
  rewrite Hv, bind_ret. now rewrite (bind_Throw _ _ _ IH).
Qed.

End RoleSetProperties.

Section RoleSetErrors.

Context {T : Type} {host : Host}.

(** X21: a Permit that holds [null] evaluates to Roles, yet
    [createRoleSet] throws a [TypeError] on it, reading the [value] of
    [null]. *)
Theorem createRoleSet_null identical src (permit : Permit T) target roles rest :
  result (evaluatePermit src permit target) = Return (roles ++ ANull :: rest) ->
  Forall (fun role => exists v, Get role "value" = ret v) roles ->
  result (createRoleSet identical src permit target) = Throw TypeError.
Proof.
  intros He Hr. unfold createRoleSet. rewrite (result_bind _ _ _ He).
  now rewrite (bind_Throw _ _ _ (values_null roles rest Hr)).
Qed.

End RoleSetErrors.

(** * Concrete runs of the derived operations *)

(** [checkPermit('x', false)] returns a failed Approval. *)
Lemma checkPermit_Return_witness :
  let approval := failed (DenialObject "Denial: Privilege: false" "Privilege"
                            (ABoolean false)) in
  result (checkPermit (host := plain) Second (PermitValue (AString "x"))
            (PrivilegeValue (ABoolean false)) tt) = Return approval /\
  (approval = approvedObject \/ Denied approval).
Proof.
  intros approval. split; [reflexivity|].
  exact (checkPermit_Return (host := plain) Second (PermitValue (AString "x"))
           (PrivilegeValue (ABoolean false)) tt approval eq_refl).
Defined.

(** [checkPermission(true)] returns [{value: true}]. *)
Lemma checkPermission_Return_witness :
  result (checkPermission (host := plain) Second (PermissionValue (ABoolean true))
            (PrivilegeValue ANull) tt) = Return approvedObject /\
  (approvedObject = approvedObject \/ Denied approvedObject).
Proof.
  split; [reflexivity|].
  exact (checkPermission_Return (host := plain) Second
           (PermissionValue (ABoolean true)) (PrivilegeValue ANull) tt
           approvedObject eq_refl).
Defined.



(** [['a', null]] against [true], with a spy in the Permit. *)
Lemma checkPermit_true_witness :
  let permit :=
    PermitArray [PermitFunction "spy" (fun _ : unit => PermitValue (AString "a"));
                 PermitValue ANull] in
  result (evaluatePermit (host := plain) First permit tt)
  = Return [object [("value", AString "a");
                    ("error", DenialObject "Denial: Permit" "Permit" (AString "a"))];
            ANull] /\
  checkPermit (host := plain) First permit (PrivilegeValue (ABoolean true)) tt
  = run ["spy"] (Return approvedObject).
Proof.
  intros permit. split; [reflexivity|].
  exact (checkPermit_true (host := plain) First permit tt _ eq_refl).
Defined.

(** [checkPermit('x', false)] and [checkPermit([[]], false)]. *)
Lemma checkPermit_false_witness :
  (exists d,
      IsDenial "Privilege" (ABoolean false) d /\
      result (checkPermit (host := plain) First (PermitValue (AString "x"))
                (PrivilegeValue (ABoolean false)) tt) = Return (failed d)) /\
  (exists d,
      IsDenial "Privilege" (ABoolean false) d /\
      result (checkPermit (host := plain) First (PermitArray [PermitArray []])
                (PrivilegeValue (ABoolean false)) tt) = Return approvedObject).
Proof.
  split.
  - exact (checkPermit_false (host := plain) First (PermitValue (AString "x")) tt
             _ eq_refl).
  - exact (checkPermit_false (host := plain) First (PermitArray [PermitArray []]) tt
             [] eq_refl).
Defined.

(** Three Permission tuples: the second fails, the third is a spy. *)
Lemma checkPermissions_first_failure_witness :
  let first := (PermissionValue (ABoolean true), PrivilegeValue ANull, tt) in
  let second := (PermissionValue (failed customError), PrivilegeValue ANull, tt) in
  let third :=
    (PermissionFunction "spy" (fun _ (_ : unit) => PermissionValue (ABoolean true)),
     PrivilegeValue ANull, tt) in
  Forall (PassesPermission (host := plain) First) [first] /\
  FailsPermissionWith (host := plain) First second (failed customError) /\
  checkPermissions (host := plain) First [first; second; third]
  = run [] (Return (failed customError)).
Proof.
  intros first second third.
  assert (Hp : Forall (PassesPermission (host := plain) First) [first]).
  { constructor; [|constructor].
    exists approvedObject. split; [reflexivity|].
    exists (ABoolean true). split; reflexivity. }
  assert (Hf : FailsPermissionWith (host := plain) First second (failed customError)).
  { split; [reflexivity|]. exists (ABoolean false). split; reflexivity. }
  split; [exact Hp|]. split; [exact Hf|].
  exact (checkPermissions_first_failure (host := plain) [first] second [third]
           (failed customError) Hp Hf).
Defined.

(** Two tuples of which the second fails. *)
Lemma checkPermits_Return_witness :
  let first := (PermitValue (AString "a"), PrivilegeValue (ABoolean true), tt) in
  let second := (PermitValue (AString "b"), PrivilegeValue (failed customError), tt) in
  result (checkPermits (host := plain) First [first; second])
  = Return (failed customError) /\
  (failed customError = approvedObject \/
   (Denied (failed customError) /\
    exists check,
      In check [first; second] /\
      FailsWith (host := plain) First check (failed customError))).
Proof.
  intros first second. split; [reflexivity|].
  exact (checkPermits_Return (host := plain) [first; second] (failed customError)
           eq_refl).
Defined.

(** [requirePermit('x', {value: false, error: null})] throws [null], and
    with the error ['e'] a Denial that holds it. *)
Lemma requirePermit_denied_witness :
  result (requirePermit (host := plain) Second (PermitValue (AString "x"))
            (PrivilegeValue (failed ANull)) tt) = Throw ANull /\
  (exists d,
      IsDenial "Permit" (AString "e") d /\
      result (requirePermit (host := plain) Second (PermitValue (AString "x"))
                (PrivilegeValue (failed (AString "e"))) tt) = Throw d).
Proof.
  assert (Hd : forall error, Denied (failed error)).
  { intros error. exists (ABoolean false). split; reflexivity. }
  split.
  - exact (requirePermit_denied (host := plain) Second (PermitValue (AString "x"))
             (PrivilegeValue (failed ANull)) tt (failed ANull) ANull
             eq_refl (Hd ANull) eq_refl).
  - exact (requirePermit_denied (host := plain) Second (PermitValue (AString "x"))
             (PrivilegeValue (failed (AString "e"))) tt (failed (AString "e"))
             (AString "e") eq_refl (Hd (AString "e")) eq_refl).
Defined.

(** [requirePermits(['x', {value: false, error: 'e'}, t])] throws the
    string ['e']. *)
Lemma requirePermits_throws_witness :
  let failing :=
    (PermitValue (AString "x"), PrivilegeValue (failed (AString "e")), tt) in
  FailsWith (host := plain) First failing (failed (AString "e")) /\
  result (requirePermits (host := plain) First [failing]) = Throw (AString "e").
Proof.
  intros failing.
  assert (Hf : FailsWith (host := plain) First failing (failed (AString "e"))).
  { split; [reflexivity|]. exists (ABoolean false). split; reflexivity. }
  split; [exact Hf|].
  exact (requirePermits_throws (host := plain) [] failing [] (failed (AString "e"))
           (AString "e") (Forall_nil _) Hf eq_refl).
Defined.

(** [requirePermissions([{value: false}, privilege, t])] throws
    [undefined]. *)
Lemma requirePermissions_throws_witness :
  let failing :=
    (PermissionValue (object [("value", ABoolean false)]), PrivilegeValue ANull, tt) in
  FailsPermissionWith (host := plain) First failing
    (object [("value", ABoolean false)]) /\
  result (requirePermissions (host := plain) First [failing]) = Throw AUndefined.
Proof.
  intros failing.
  assert (Hf : FailsPermissionWith (host := plain) First failing
                 (object [("value", ABoolean false)])).
  { split; [reflexivity|]. exists (ABoolean false). split; reflexivity. }
  split; [exact Hf|].
  exact (requirePermissions_throws (host := plain) [] failing []
           (object [("value", ABoolean false)]) AUndefined (Forall_nil _) Hf eq_refl).
Defined.

(** [createRoleSet(['a', 'a', 'b'], t)]. *)
Lemma createRoleSet_set_witness :
  let identical := fun _ _ : Any => false in
  let permit :=
    PermitArray [PermitValue (AString "a"); PermitValue (AString "a");
                 PermitValue (AString "b")] in
  result (createRoleSet (host := plain) identical First permit tt)
  = Return [AString "a"; AString "b"] /\
  exists set,
    result (createRoleSet (host := plain) identical First permit tt) = Return set /\
    NoDup set /\
    (forall v, In v set <-> In v [AString "a"; AString "a"; AString "b"]).
Proof.
  intros identical permit. split; [reflexivity|].
  refine (createRoleSet_set (host := plain) identical First permit tt _
            [AString "a"; AString "a"; AString "b"] eq_refl eq_refl _).
  repeat constructor.
Defined.

(** [createRoleSets([['a', 'b'], t], [['b', 'c', 'a'], t])]. *)
Lemma createRoleSets_set_witness :
  let identical := fun _ _ : Any => false in
  let role s :=
    object [("value", AString s);
            ("error", DenialObject "Denial: Permit" "Permit" (AString s))] in
  let first := (PermitArray [PermitValue (AString "a"); PermitValue (AString "b")], tt) in
  let second :=
    (PermitArray [PermitValue (AString "b"); PermitValue (AString "c");
                  PermitValue (AString "a")], tt) in
  result (createRoleSets (host := plain) identical First [first; second])
  = Return [AString "a"; AString "b"; AString "c"].
Proof.
  intros identical role first second.
  refine (createRoleSets_set (host := plain) identical [first; second]
            [[AString "a"; AString "b"]; [AString "b"; AString "c"; AString "a"]]
            _ _).
  - constructor; [|constructor; [|constructor]].
    + exists [role "a"; role "b"]. split; reflexivity.
    + exists [role "b"; role "c"; role "a"]. split; reflexivity.
  - repeat constructor.
Defined.

(** [createRoleSet(['a', null], t)]. *)
Lemma createRoleSet_null_witness :
  let permit := PermitArray [PermitValue (AString "a"); PermitValue ANull] in
  result (createRoleSet (host := plain) (fun _ _ => false) First permit tt)
  = Throw TypeError.
Proof.
  intros permit.
  refine (createRoleSet_null (host := plain) (fun _ _ => false) First permit tt
            [object [("value", AString "a");
                     ("error", DenialObject "Denial: Permit" "Permit" (AString "a"))]]
            [] eq_refl _).
  constructor; [|constructor]. eexists. reflexivity.
Defined.
